(** * DateRangeInput: the dual-field coordination logic of
    [packages/datetime/src/dateRangeInput.tsx], as a shallow embedding.

    The component is a React class: every handler reads [this.props] and
    [this.state], and finishes with [this.setState] on a partial state.
    Here a handler is a function from the props and the state before to the
    state after and the list of effects it performs on its surroundings
    (calls on the two input refs, on the event, on the host callbacks).

    Dates are JavaScript timestamps: a [Z] counting milliseconds of local
    time (no time zone, no daylight saving).  The moment.js values the
    component stores are modelled by [Moment]. *)

From Stdlib Require Import ZArith String Ascii List Bool Lia.
Import ListNotations.
Local Open Scope string_scope.
Local Open Scope Z_scope.

(** ** JavaScript values *)

(** A [Date] that is not [null]: milliseconds since the epoch. *)
Definition JSDate := Z.

(** [DateRange = [Date, Date]], either entry may be [null] ([None]). *)
Definition DateRange := (option JSDate * option JSDate)%type.

(** A state slot of type [string]: it may hold [undefined], [null] or a
    string; [x != null] tells a string from the other two and [===] is
    equality of this type. *)
Inductive jstring :=
| SUndef
| SNull
| SStr (s : string).

Definition jstring_eqb (a b : jstring) : bool :=
  match a, b with
  | SUndef, SUndef => true
  | SNull, SNull => true
  | SStr x, SStr y => String.eqb x y
  | _, _ => false
  end.

(** [x != null] *)
Definition notNullish (a : jstring) : bool :=
  match a with SStr _ => true | _ => false end.

(** [x || <empty string>], the [value] attribute handed to the input
    element. *)
Definition orEmpty (a : jstring) : string :=
  match a with SStr s => s | _ => EmptyString end.

(** Truthiness of a string slot: only a non-empty string is truthy. *)
Definition truthy (a : jstring) : bool :=
  match a with SStr s => negb (String.eqb s EmptyString) | _ => false end.

Inductive DateRangeBoundary := START | END.

Definition boundary_eqb (a b : DateRangeBoundary) : bool :=
  match a, b with START, START | END, END => true | _, _ => false end.

Definition other (b : DateRangeBoundary) : DateRangeBoundary :=
  match b with START => END | END => START end.

(** ** moment.js values *)

Definition msPerDay : Z := 86400000.

(** The calendar day a timestamp falls on. *)
Definition dayOf (t : Z) : Z := t / msPerDay.

(** A [moment.Moment] object.  [MNullInput] is [moment(null)] (invalid,
    with [parsingFlags().nullInput]); [MInvalid] is any other invalid
    moment; [MDate t] is a valid one. *)
Inductive Moment :=
| MNullInput
| MInvalid
| MDate (t : Z).

(** [m.isValid()] *)
Definition isValid (m : Moment) : bool :=
  match m with MDate _ => true | _ => false end.

(** [m.parsingFlags().nullInput] *)
Definition nullInput (m : Moment) : bool :=
  match m with MNullInput => true | _ => false end.

(** [a.isBefore(b)], where [b] may be [null]: false unless both are valid. *)
Definition isBefore (a : Moment) (b : option Moment) : bool :=
  match a, b with
  | MDate x, Some (MDate y) => x <? y
  | _, _ => false
  end.

(** [m.isBetween(lo, hi, "day", "[]")]: day granularity, both ends
    included. *)
Definition isBetweenDays (m : Moment) (lo hi : JSDate) : bool :=
  match m with
  | MDate t => (dayOf lo <=? dayOf t) && (dayOf t <=? dayOf hi)
  | _ => false
  end.

(** [a.diff(b, "days") === 0]: the difference in days is the difference in
    milliseconds divided by the length of a day and truncated toward zero;
    it is [NaN] when either moment is invalid. *)
Definition diffDaysIsZero (a b : Moment) : bool :=
  match a, b with
  | MDate x, MDate y => Z.quot (x - y) msPerDay =? 0
  | _, _ => false
  end.

(** [m.toDate()]: [None] stands for the [Invalid Date] object. *)
Definition toDate (m : Moment) : option JSDate :=
  match m with MDate t => Some t | _ => None end.

(** ** [common/dateUtils] *)

(** Modelled from the spec: [areSameDay] of [common/dateUtils] is not among
    the sources; equality of calendar dates ignores the time of day, and an
    [Invalid Date] is the same day as nothing. *)
Definition areSameDay (a b : option JSDate) : bool :=
  match a, b with
  | Some x, Some y => dayOf x =? dayOf y
  | _, _ => false
  end.

(** Modelled from the spec: [fromDateToMoment] of [common/dateUtils] is not
    among the sources; [null] becomes [moment(null)] and a date becomes the
    moment of the same instant. *)
Definition fromDateToMoment (d : option JSDate) : Moment :=
  match d with None => MNullInput | Some t => MDate t end.

(** Modelled from the spec: [fromDateRangeToMomentArray] of
    [common/dateUtils] is not among the sources; it converts both entries. *)
Definition fromDateRangeToMomentArray (r : DateRange) : Moment * Moment :=
  (fromDateToMoment (fst r), fromDateToMoment (snd r)).

(** Modelled from the spec: [fromMomentToDate] of [common/dateUtils] is not
    among the sources; it is only applied to valid moments here and keeps
    the instant. *)
Definition fromMomentToDate (m : Moment) : option JSDate := toDate m.

(** Modelled from the spec: [toDateRange] of [common/dateUtils] is not among
    the sources; it pairs the two boundaries. *)
Definition toDateRange (a b : option JSDate) : DateRange := (a, b).

(** [a < b] on two values that are each a [Date] or [null]: both are
    converted to numbers, [null] to [0]. *)
Definition dateLt (a b : option JSDate) : bool :=
  match a, b with
  | Some x, Some y => x <? y
  | None, Some y => 0 <? y
  | Some x, None => x <? 0
  | None, None => false
  end.

(** ** Props and state *)

Record IDateRangeInputProps := {
  allowSingleDayRange : bool;
  allowUnboundedDateRange : bool;
  closeOnSelection : bool;
  disabled : bool;
  defaultValue : option DateRange;
  format : string;
  invalidDateMessage : string;
  invalidEndDateMessage : string;
  maxDate : option JSDate;
  minDate : option JSDate;
  openOnFocus : bool;
  outOfRangeMessage : string;
  selectAllOnFocus : bool;
  (** [None] is [undefined]: the component is uncontrolled. *)
  value : option DateRange
}.

(** [defaultProps]; the two default bounds come from [datePickerCore] and
    depend on the day the program runs. *)
Definition defaultProps (defaultMin defaultMax : JSDate) : IDateRangeInputProps :=
  {| allowSingleDayRange := false;
     allowUnboundedDateRange := false;
     closeOnSelection := false;
     disabled := false;
     defaultValue := None;
     format := "YYYY-MM-DD";
     invalidDateMessage := "Invalid date";
     invalidEndDateMessage := "Invalid end date";
     maxDate := Some defaultMax;
     minDate := Some defaultMin;
     openOnFocus := true;
     outOfRangeMessage := "Out of range";
     selectAllOnFocus := true;
     value := None |}.

(** A value slot holds a moment or [null] ([None]). *)
Record IDateRangeInputState := {
  isOpen : bool;
  mostRecentlyFocusedField : option DateRangeBoundary;
  isStartDateInputFocused : bool;
  startDateHoverValueString : jstring;
  startDateValue : option Moment;
  startDateValueString : jstring;
  isEndDateInputFocused : bool;
  endDateHoverValueString : jstring;
  endDateValue : option Moment;
  endDateValueString : jstring;
  boundaryToModify : option DateRangeBoundary;
  wasLastFocusChangeDueToHover : bool
}.

(** What a handler does besides [setState]. *)
Inductive Effect :=
| RefFocus (b : DateRangeBoundary)     (* this.<b>DateInputRef.focus() *)
| RefBlur (b : DateRangeBoundary)      (* this.<b>DateInputRef.blur() *)
| SelectAll                            (* e.currentTarget.select() *)
| StopPropagation                      (* e.stopPropagation() *)
| OnChange (r : DateRange)             (* this.props.onChange(r) *)
| OnError (d : option JSDate).         (* this.props.onError(d) *)

(** *** The state slots a handler is given by key *)

Definition valueOf (b : DateRangeBoundary) (st : IDateRangeInputState) : option Moment :=
  match b with START => startDateValue st | END => endDateValue st end.

Definition valueStringOf (b : DateRangeBoundary) (st : IDateRangeInputState) : jstring :=
  match b with START => startDateValueString st | END => endDateValueString st end.

Definition hoverStringOf (b : DateRangeBoundary) (st : IDateRangeInputState) : jstring :=
  match b with START => startDateHoverValueString st | END => endDateHoverValueString st end.

Definition focusedOf (b : DateRangeBoundary) (st : IDateRangeInputState) : bool :=
  match b with START => isStartDateInputFocused st | END => isEndDateInputFocused st end.

Definition setIsOpen (v : bool) (st : IDateRangeInputState) :=
  {| isOpen := v;
     mostRecentlyFocusedField := mostRecentlyFocusedField st;
     isStartDateInputFocused := isStartDateInputFocused st;
     startDateHoverValueString := startDateHoverValueString st;
     startDateValue := startDateValue st;
     startDateValueString := startDateValueString st;
     isEndDateInputFocused := isEndDateInputFocused st;
     endDateHoverValueString := endDateHoverValueString st;
     endDateValue := endDateValue st;
     endDateValueString := endDateValueString st;
     boundaryToModify := boundaryToModify st;
     wasLastFocusChangeDueToHover := wasLastFocusChangeDueToHover st |}.

Definition setMostRecentlyFocusedField (v : option DateRangeBoundary) (st : IDateRangeInputState) :=
  {| isOpen := isOpen st;
     mostRecentlyFocusedField := v;
     isStartDateInputFocused := isStartDateInputFocused st;
     startDateHoverValueString := startDateHoverValueString st;
     startDateValue := startDateValue st;
     startDateValueString := startDateValueString st;
     isEndDateInputFocused := isEndDateInputFocused st;
     endDateHoverValueString := endDateHoverValueString st;
     endDateValue := endDateValue st;
     endDateValueString := endDateValueString st;
     boundaryToModify := boundaryToModify st;
     wasLastFocusChangeDueToHover := wasLastFocusChangeDueToHover st |}.

Definition setBoundaryToModify (v : option DateRangeBoundary) (st : IDateRangeInputState) :=
  {| isOpen := isOpen st;
     mostRecentlyFocusedField := mostRecentlyFocusedField st;
     isStartDateInputFocused := isStartDateInputFocused st;
     startDateHoverValueString := startDateHoverValueString st;
     startDateValue := startDateValue st;
     startDateValueString := startDateValueString st;
     isEndDateInputFocused := isEndDateInputFocused st;
     endDateHoverValueString := endDateHoverValueString st;
     endDateValue := endDateValue st;
     endDateValueString := endDateValueString st;
     boundaryToModify := v;
     wasLastFocusChangeDueToHover := wasLastFocusChangeDueToHover st |}.

Definition setWasLastFocusChangeDueToHover (v : bool) (st : IDateRangeInputState) :=
  {| isOpen := isOpen st;
     mostRecentlyFocusedField := mostRecentlyFocusedField st;
     isStartDateInputFocused := isStartDateInputFocused st;
     startDateHoverValueString := startDateHoverValueString st;
     startDateValue := startDateValue st;
     startDateValueString := startDateValueString st;
     isEndDateInputFocused := isEndDateInputFocused st;
     endDateHoverValueString := endDateHoverValueString st;
     endDateValue := endDateValue st;
     endDateValueString := endDateValueString st;
     boundaryToModify := boundaryToModify st;
     wasLastFocusChangeDueToHover := v |}.

(** [setState({ [valueKey]: v })] *)
Definition setValue (b : DateRangeBoundary) (v : option Moment) (st : IDateRangeInputState) :=
  {| isOpen := isOpen st;
     mostRecentlyFocusedField := mostRecentlyFocusedField st;
     isStartDateInputFocused := isStartDateInputFocused st;
     startDateHoverValueString := startDateHoverValueString st;
     startDateValue := match b with START => v | END => startDateValue st end;
     startDateValueString := startDateValueString st;
     isEndDateInputFocused := isEndDateInputFocused st;
     endDateHoverValueString := endDateHoverValueString st;
     endDateValue := match b with START => endDateValue st | END => v end;
     endDateValueString := endDateValueString st;
     boundaryToModify := boundaryToModify st;
     wasLastFocusChangeDueToHover := wasLastFocusChangeDueToHover st |}.

(** [setState({ [valueStringKey]: v })] *)
Definition setValueString (b : DateRangeBoundary) (v : jstring) (st : IDateRangeInputState) :=
  {| isOpen := isOpen st;
     mostRecentlyFocusedField := mostRecentlyFocusedField st;
     isStartDateInputFocused := isStartDateInputFocused st;
     startDateHoverValueString := startDateHoverValueString st;
     startDateValue := startDateValue st;
     startDateValueString := match b with START => v | END => startDateValueString st end;
     isEndDateInputFocused := isEndDateInputFocused st;
     endDateHoverValueString := endDateHoverValueString st;
     endDateValue := endDateValue st;
     endDateValueString := match b with START => endDateValueString st | END => v end;
     boundaryToModify := boundaryToModify st;
     wasLastFocusChangeDueToHover := wasLastFocusChangeDueToHover st |}.

(** [setState({ [hoverValueStringKey]: v })] *)
Definition setHoverString (b : DateRangeBoundary) (v : jstring) (st : IDateRangeInputState) :=
  {| isOpen := isOpen st;
     mostRecentlyFocusedField := mostRecentlyFocusedField st;
     isStartDateInputFocused := isStartDateInputFocused st;
     startDateHoverValueString := match b with START => v | END => startDateHoverValueString st end;
     startDateValue := startDateValue st;
     startDateValueString := startDateValueString st;
     isEndDateInputFocused := isEndDateInputFocused st;
     endDateHoverValueString := match b with START => endDateHoverValueString st | END => v end;
     endDateValue := endDateValue st;
     endDateValueString := endDateValueString st;
     boundaryToModify := boundaryToModify st;
     wasLastFocusChangeDueToHover := wasLastFocusChangeDueToHover st |}.

(** [setState({ [focusStateKey]: v })] *)
Definition setFocused (b : DateRangeBoundary) (v : bool) (st : IDateRangeInputState) :=
  {| isOpen := isOpen st;
     mostRecentlyFocusedField := mostRecentlyFocusedField st;
     isStartDateInputFocused := match b with START => v | END => isStartDateInputFocused st end;
     startDateHoverValueString := startDateHoverValueString st;
     startDateValue := startDateValue st;
     startDateValueString := startDateValueString st;
     isEndDateInputFocused := match b with START => isEndDateInputFocused st | END => v end;
     endDateHoverValueString := endDateHoverValueString st;
     endDateValue := endDateValue st;
     endDateValueString := endDateValueString st;
     boundaryToModify := boundaryToModify st;
     wasLastFocusChangeDueToHover := wasLastFocusChangeDueToHover st |}.

(** ** Boolean functions of the component *)

(** [dateIsInRange]: with either bound missing every value is in range. *)
Definition dateIsInRange (props : IDateRangeInputProps) (v : option Moment) : bool :=
  match minDate props, maxDate props with
  | Some lo, Some hi =>
      match v with
      | Some m => isBetweenDays m lo hi
      | None => false
      end
  | _, _ => true
  end.

Definition isDateValidAndInRange (props : IDateRangeInputProps) (v : option Moment) : bool :=
  match v with
  | Some m => isValid m && dateIsInRange props v
  | None => false
  end.

Definition isNull (v : option Moment) : bool :=
  match v with
  | Some m => nullInput m
  | None => true
  end.

(** [Keys.TAB] of [@blueprintjs/core]. *)
Definition Keys_TAB : Z := 9.

(** ** The component, over the parsing and printing of moment.js *)

Section DateRangeInput.

(** [moment(text, format)] on a string [text], and [m.format(format)] on a
    valid moment at instant [t]. *)
Variable momentParse : string -> string -> Moment.
Variable momentFormat : Z -> string -> string.

Variable props : IDateRangeInputProps.

(** [moment(s, this.props.format)] on a state slot: [null] gives
    [moment(null)], and [undefined] is parsed as the text it converts to. *)
Definition momentOf (s : jstring) : Moment :=
  match s with
  | SNull => MNullInput
  | SUndef => momentParse "undefined" (format props)
  | SStr x => momentParse x (format props)
  end.

(** [m.format(this.props.format)]: an invalid moment prints as moment's
    [Invalid date]. *)
Definition formatMoment (m : Moment) : string :=
  match m with
  | MDate t => momentFormat t (format props)
  | _ => "Invalid date"
  end.

(** Modelled from the spec: [toFormattedDateString] of [common/dateUtils] is
    not among the sources; it prints a date under the format. *)
Definition toFormattedDateString (d : JSDate) : string :=
  momentFormat d (format props).

(** *** Getters *)

Definition getDefaultDateRange : Moment * Moment :=
  match defaultValue props with
  | Some r => fromDateRangeToMomentArray r
  | None => fromDateRangeToMomentArray (None, None)
  end.

Definition getCurrentDateRange (st : IDateRangeInputState) : DateRange :=
  let startDate :=
    if isDateValidAndInRange props (startDateValue st)
    then match startDateValue st with Some m => fromMomentToDate m | None => None end
    else None in
  let endDate :=
    if isDateValidAndInRange props (endDateValue st)
    then match endDateValue st with Some m => fromMomentToDate m | None => None end
    else None in
  if dateLt endDate startDate
  then toDateRange startDate None
  else toDateRange startDate endDate.

Definition getDateStringForDisplay (v : option Moment) : string :=
  match v with
  | None => EmptyString
  | Some m =>
      if nullInput m then EmptyString
      else if negb (isValid m) then invalidDateMessage props
      else if negb (dateIsInRange props v) then outOfRangeMessage props
      else formatMoment m
  end.

Definition getStartDateInputPlaceholder (st : IDateRangeInputState)
    (startDateString endDateString : jstring) : string :=
  match isStartDateInputFocused st, minDate props with
  | true, Some lo => toFormattedDateString lo
  | _, _ =>
      if allowUnboundedDateRange props && (truthy startDateString || truthy endDateString)
      then "All before"
      else "Start date"
  end.

Definition getEndDateInputPlaceholder (st : IDateRangeInputState)
    (startDateString endDateString : jstring) : string :=
  match isEndDateInputFocused st, maxDate props with
  | true, Some hi => toFormattedDateString hi
  | _, _ =>
      if allowUnboundedDateRange props && (truthy startDateString || truthy endDateString)
      then "All after"
      else "End date"
  end.

(** *** The constructor *)

Definition initialState : IDateRangeInputState :=
  let '(defaultStartDateValue, defaultEndDateValue) := getDefaultDateRange in
  {| isOpen := false;
     mostRecentlyFocusedField := None;
     isStartDateInputFocused := false;
     startDateHoverValueString := SUndef;
     startDateValue :=
       Some match value props with
            | Some (Some d, _) => fromDateToMoment (Some d)
            | _ => defaultStartDateValue
            end;
     startDateValueString := SNull;
     isEndDateInputFocused := false;
     endDateHoverValueString := SUndef;
     endDateValue :=
       Some match value props with
            | Some (_, Some d) => fromDateToMoment (Some d)
            | _ => defaultEndDateValue
            end;
     endDateValueString := SNull;
     boundaryToModify := None;
     wasLastFocusChangeDueToHover := false |}.

(** *** Callback handlers

    Each takes the state before and gives the state after its [setState]
    and the effects in the order they are performed.  The input refs are
    taken to be set, as they are while the component is mounted. *)

Definition handleHoverChange (st : IDateRangeInputState) (hoveredRange : option DateRange)
  : IDateRangeInputState * list Effect :=
  match hoveredRange with
  | None => (setHoverString END SNull (setHoverString START SNull st), [])
  | Some r =>
      let '(hoveredStart, hoveredEnd) := fromDateRangeToMomentArray r in
      let hoveredStartString := getDateStringForDisplay (Some hoveredStart) in
      let hoveredEndString := getDateStringForDisplay (Some hoveredEnd) in
      let selectedStart := startDateValue st in
      let selectedEnd := endDateValue st in
      let isStartNull := isNull selectedStart in
      let isEndNull := isNull selectedEnd in
      let isExactlyOneBoundarySelected :=
        (negb isStartNull && isEndNull) || (isStartNull && negb isEndNull) in
      let focusCalls :=
        if isExactlyOneBoundarySelected then
          if isEndNull then
            let doesHoverRangeStartOnSelectedStartDate :=
              match selectedStart with
              | Some s => diffDaysIsZero hoveredStart s
              | None => false
              end in
            if doesHoverRangeStartOnSelectedStartDate
            then [RefFocus END]
            else [RefFocus START]
          else
            let doesHoverRangeEndOnSelectedEndDate :=
              match selectedEnd with
              | Some s => diffDaysIsZero hoveredEnd s
              | None => false
              end in
            if doesHoverRangeEndOnSelectedEndDate
            then [RefFocus START]
            else [RefFocus END]
        else [] in
      (setWasLastFocusChangeDueToHover true
         (setHoverString START (SStr hoveredStartString)
            (setHoverString END (SStr hoveredEndString) st)),
       focusCalls)
  end.

Definition handleDayMouseEnter (st : IDateRangeInputState)
  : IDateRangeInputState * list Effect :=
  let isNeitherInputFocused :=
    negb (isStartDateInputFocused st) && negb (isEndDateInputFocused st) in
  match mostRecentlyFocusedField st with
  | Some START => if isNeitherInputFocused then (setFocused START true st, []) else (st, [])
  | Some END => if isNeitherInputFocused then (setFocused END true st, []) else (st, [])
  | None => (st, [])
  end.

Definition handleIconClick (st : IDateRangeInputState)
  : IDateRangeInputState * list Effect :=
  if isOpen st
  then (st, [RefBlur START; RefBlur END])
  else (setIsOpen true st, [StopPropagation; RefFocus START; RefBlur END]).

Definition handleGenericInputFocus (st : IDateRangeInputState)
    (v : option Moment) (key : DateRangeBoundary) (boundary : DateRangeBoundary)
  : IDateRangeInputState * list Effect :=
  let valueString :=
    match v with
    | None => EmptyString
    | Some m => if nullInput m then EmptyString else formatMoment m
    end in
  let sanitizedBoundaryToModify :=
    if wasLastFocusChangeDueToHover st then boundaryToModify st else Some boundary in
  let st' :=
    setWasLastFocusChangeDueToHover false
      (setMostRecentlyFocusedField (Some boundary)
         (setBoundaryToModify sanitizedBoundaryToModify
            (setValueString key (SStr valueString)
               (setFocused key true st)))) in
  (if openOnFocus props then setIsOpen true st' else st',
   if selectAllOnFocus props then [SelectAll] else []).

Definition handleStartDateInputFocus (st : IDateRangeInputState) :=
  handleGenericInputFocus st (startDateValue st) START START.

Definition handleEndDateInputFocus (st : IDateRangeInputState) :=
  handleGenericInputFocus st (endDateValue st) END END.

(** [valueString == null || valueString.length === 0] *)
Definition isInputEmpty (valueString : jstring) : bool :=
  match valueString with
  | SStr s => Nat.eqb (String.length s) 0
  | _ => true
  end.

(** The local [didInputChangeToInvalidState] of [handleGenericInputBlur].
    The text is compared with the display string of [startDateValue]
    whichever field the handler was called for. *)
Definition didInputChangeToInvalidState (st : IDateRangeInputState)
    (valueString : jstring) : bool :=
  let v := momentOf valueString in
  let isValueInvalid := negb (isValid v) in
  let isValueOutOfRange := negb (dateIsInRange props (Some v)) in
  let isValueStringOutOfSync :=
    negb (jstring_eqb valueString (SStr (getDateStringForDisplay (startDateValue st)))) in
  negb (isInputEmpty valueString) && isValueStringOutOfSync
  && (isValueInvalid || isValueOutOfRange).

Definition handleGenericInputBlur (st : IDateRangeInputState)
    (valueString : jstring) (key : DateRangeBoundary)
  : IDateRangeInputState * list Effect :=
  let v := momentOf valueString in
  let isValueInvalid := negb (isValid v) in
  let isValueOutOfRange := negb (dateIsInRange props (Some v)) in
  if isInputEmpty valueString then
    (setValueString key SNull (setValue key (Some MNullInput) (setFocused key false st)), [])
  else if didInputChangeToInvalidState st valueString then
    (match value props with
     | None => setValueString key SNull (setValue key (Some v) (setFocused key false st))
     | Some _ => setFocused key false st
     end,
     if isValueInvalid then [] (* TODO: Call onError with an empty date *)
     else if isValueOutOfRange then [] (* TODO: Call onError with value *)
     else [] (* TODO: Call onChange with value *))
  else
    (setFocused key false st, []).

Definition handleStartDateInputBlur (st : IDateRangeInputState) :=
  handleGenericInputBlur st (startDateValueString st) START.

Definition handleEndDateInputBlur (st : IDateRangeInputState) :=
  handleGenericInputBlur st (endDateValueString st) END.

Definition handleGenericInputChange (st : IDateRangeInputState)
    (valueString : string) (key : DateRangeBoundary)
  : IDateRangeInputState * list Effect :=
  let v := momentParse valueString (format props) in
  if Nat.eqb (String.length valueString) 0 then
    (setHoverString key SNull
       (setValueString key (SStr EmptyString) (setValue key None st)), [])
  else if isValid v && dateIsInRange props (Some v) then
    (match value props with
     | None => setValueString key (SStr valueString) (setValue key (Some v) st)
     | Some _ => setValueString key (SStr valueString) st
     end,
     [] (* TODO: Utils.safeInvoke(this.props.onChange, ...) *))
  else
    (setValueString key (SStr valueString) (setValue key (Some v) st), []).

Definition handleStartDateInputChange (st : IDateRangeInputState) (valueString : string) :=
  handleGenericInputChange st valueString START.

Definition handleEndDateInputChange (st : IDateRangeInputState) (valueString : string) :=
  handleGenericInputChange st valueString END.

Definition handleGenericInputKeyDown (st : IDateRangeInputState)
    (keyCode : Z) (shiftKey : bool)
  : IDateRangeInputState * list Effect :=
  let isTabPressed := keyCode =? Keys_TAB in
  let isShiftPressed := shiftKey in
  let willMoveFocusFromStartToEndField := isStartDateInputFocused st && isTabPressed in
  let willMoveFocusFromEndToStartField :=
    isEndDateInputFocused st && isTabPressed && isShiftPressed in
  let willChangeFocusedField :=
    willMoveFocusFromStartToEndField || willMoveFocusFromEndToStartField in
  if willChangeFocusedField
  then (setWasLastFocusChangeDueToHover false st, [])
  else (st, []).

Definition handleGenericInputClick (st : IDateRangeInputState)
  : IDateRangeInputState * list Effect :=
  (st, [StopPropagation]).

Definition handleClosePopover (st : IDateRangeInputState)
  : IDateRangeInputState * list Effect :=
  (setIsOpen false st, []).

Definition handleDateRangeChange (st : IDateRangeInputState) (dateRange : DateRange)
  : IDateRangeInputState * list Effect :=
  let '(startDate, endDate) := dateRange in
  let startDateValue' := fromDateToMoment startDate in
  let endDateValue' := fromDateToMoment endDate in
  let startDateValueString' :=
    match startDate with Some _ => formatMoment startDateValue' | None => EmptyString end in
  let endDateValueString' :=
    match endDate with Some _ => formatMoment endDateValue' | None => EmptyString end in
  (* isStartDateInputFocused, isEndDateInputFocused, isOpen,
     startDateHoverValueString, endDateHoverValueString *)
  let '(startFocused, endFocused, open, startHover, endHover) :=
    match startDate, endDate with
    | None, _ => (true, false, true, SNull, SUndef)
    | Some _, None => (false, true, true, SUndef, SNull)
    | Some _, Some _ =>
        if closeOnSelection props then (false, false, false, SUndef, SUndef)
        else
          match mostRecentlyFocusedField st with
          | Some START => (true, false, true, SUndef, SUndef)
          | _ => (false, true, true, SUndef, SUndef)
          end
    end in
  ({| isOpen := open;
      mostRecentlyFocusedField := mostRecentlyFocusedField st;
      isStartDateInputFocused := startFocused;
      startDateHoverValueString := startHover;
      startDateValue := Some startDateValue';
      startDateValueString := SStr startDateValueString';
      isEndDateInputFocused := endFocused;
      endDateHoverValueString := endHover;
      endDateValue := Some endDateValue';
      endDateValueString := SStr endDateValueString';
      boundaryToModify := boundaryToModify st;
      wasLastFocusChangeDueToHover := false |}, []).

(** *** [componentDidUpdate]

    [activeElement] is the input [document.activeElement] is, if it is one
    of the two.  The method brings the focus of the page in line with the
    marks of the state. *)
Definition componentDidUpdate (st : IDateRangeInputState)
    (activeElement : option DateRangeBoundary) : list Effect :=
  let isActive (b : DateRangeBoundary) :=
    match activeElement with Some a => boundary_eqb a b | None => false end in
  if isStartDateInputFocused st && negb (isActive START) then [RefFocus START]
  else if isEndDateInputFocused st && negb (isActive END) then [RefFocus END]
  else [].

(** *** [render]

    What [render] computes before it builds the markup.  A method call on a
    value slot that holds [null] throws a [TypeError]; [None] is that
    outcome. *)

Record View := {
  startDateString : jstring;
  endDateString : jstring;
  startDatePlaceholder : string;
  endDatePlaceholder : string;
  isStartDateInputInErrorState : bool;
  isEndDateInputInErrorState : bool;
  popoverIsOpen : bool;
  pickerBoundaryToModify : option DateRangeBoundary;
  pickerValue : DateRange
}.

(** The local [startDateValue] and [endDateValue] of [render]. *)
Definition renderStartDateValue (st : IDateRangeInputState) : option Moment :=
  if isStartDateInputFocused st
  then Some (momentOf (startDateValueString st))
  else startDateValue st.

Definition renderEndDateValue (st : IDateRangeInputState) : option Moment :=
  if isEndDateInputFocused st
  then Some (momentOf (endDateValueString st))
  else endDateValue st.

Definition renderStartDateString (st : IDateRangeInputState) : jstring :=
  if notNullish (startDateHoverValueString st) then startDateHoverValueString st
  else if isStartDateInputFocused st then startDateValueString st
  else SStr (getDateStringForDisplay (startDateValue st)).

Definition renderEndDateString (st : IDateRangeInputState) : option jstring :=
  if notNullish (endDateHoverValueString st) then Some (endDateHoverValueString st)
  else if isEndDateInputFocused st then Some (endDateValueString st)
  else
    match renderEndDateValue st with
    | None => None
    | Some e =>
        Some (SStr (if isBefore e (renderStartDateValue st)
                    then invalidEndDateMessage props
                    else getDateStringForDisplay (endDateValue st)))
    end.

(** The second disjunct of [isEndDateInputInErrorState]: the end moment is
    before the start moment and they are not on the same day. *)
Definition endIsBeforeStartOnAnotherDay (s e : Moment) : bool :=
  isBefore e (Some s) && negb (areSameDay (toDate s) (toDate e)).

Definition render (st : IDateRangeInputState) : option View :=
  let startV := renderStartDateValue st in
  let endV := renderEndDateValue st in
  let startS := renderStartDateString st in
  match renderEndDateString st with
  | None => None
  | Some endS =>
      let startError :=
        negb (isDateValidAndInRange props startV
              || isNull startV
              || jstring_eqb startS (SStr EmptyString)
              || jstring_eqb startS (startDateHoverValueString st)) in
      match startV, endV with
      | Some s, Some e =>
          let endError :=
            negb (isDateValidAndInRange props endV
                  || isNull endV
                  || jstring_eqb endS (SStr EmptyString)
                  || jstring_eqb endS (endDateHoverValueString st))
            || endIsBeforeStartOnAnotherDay s e in
          Some {| startDateString := startS;
                  endDateString := endS;
                  startDatePlaceholder := getStartDateInputPlaceholder st startS endS;
                  endDatePlaceholder := getEndDateInputPlaceholder st startS endS;
                  isStartDateInputInErrorState := startError;
                  isEndDateInputInErrorState := endError;
                  popoverIsOpen := isOpen st;
                  pickerBoundaryToModify := boundaryToModify st;
                  pickerValue := getCurrentDateRange st |}
      | _, _ => None
      end
  end.

(** *** Events

    The events the renderer and the calendar deliver, and the handler each
    one is bound to in [render]. *)

Inductive Event :=
| InputFocus (b : DateRangeBoundary)
| InputBlur (b : DateRangeBoundary)
| InputChange (b : DateRangeBoundary) (text : string)
| InputKeyDown (keyCode : Z) (shiftKey : bool)
| InputClick
| IconClick
| PopoverClose
| PickerChange (dateRange : DateRange)
| PickerHoverChange (hoveredRange : option DateRange)
| PickerDayMouseEnter.

Definition handle (st : IDateRangeInputState) (ev : Event)
  : IDateRangeInputState * list Effect :=
  match ev with
  | InputFocus START => handleStartDateInputFocus st
  | InputFocus END => handleEndDateInputFocus st
  | InputBlur START => handleStartDateInputBlur st
  | InputBlur END => handleEndDateInputBlur st
  | InputChange START text => handleStartDateInputChange st text
  | InputChange END text => handleEndDateInputChange st text
  | InputKeyDown keyCode shiftKey => handleGenericInputKeyDown st keyCode shiftKey
  | InputClick => handleGenericInputClick st
  | IconClick => handleIconClick st
  | PopoverClose => handleClosePopover st
  | PickerChange dateRange => handleDateRangeChange st dateRange
  | PickerHoverChange hoveredRange => handleHoverChange st hoveredRange
  | PickerDayMouseEnter => handleDayMouseEnter st
  end.

(** The events of a list handled one after the other, each to completion,
    with the effects in the order they were performed. *)
Fixpoint run (st : IDateRangeInputState) (evs : list Event)
  : IDateRangeInputState * list Effect :=
  match evs with
  | [] => (st, [])
  | ev :: rest =>
      let '(st1, fx1) := handle st ev in
      let '(st2, fx2) := run st1 rest in
      (st2, (fx1 ++ fx2)%list)
  end.

(** The change events of a text typed one character at a time into an empty
    field: one event per non-empty prefix. *)
Fixpoint typing (b : DateRangeBoundary) (typed rest : string) : list Event :=
  match rest with
  | EmptyString => []
  | String c rest' =>
      let typed' := (typed ++ String c EmptyString)%string in
      InputChange b typed' :: typing b typed' rest'
  end.

(** *** Properties of a state *)

Definition atMostOneFocused (st : IDateRangeInputState) : Prop :=
  ~ (isStartDateInputFocused st = true /\ isEndDateInputFocused st = true).

(** The host callbacks among some effects. *)
Definition isCallback (fx : Effect) : bool :=
  match fx with OnChange _ | OnError _ => true | _ => false end.

Definition isOnChange (fx : Effect) : bool :=
  match fx with OnChange _ => true | _ => false end.

Definition isOnError (fx : Effect) : bool :=
  match fx with OnError _ => true | _ => false end.

(** Two states that differ at most in the two hover strings and in the mark
    of the last focus change. *)
Definition sameApartFromHover (a b : IDateRangeInputState) : Prop :=
  isOpen a = isOpen b
  /\ mostRecentlyFocusedField a = mostRecentlyFocusedField b
  /\ isStartDateInputFocused a = isStartDateInputFocused b
  /\ startDateValue a = startDateValue b
  /\ startDateValueString a = startDateValueString b
  /\ isEndDateInputFocused a = isEndDateInputFocused b
  /\ endDateValue a = endDateValue b
  /\ endDateValueString a = endDateValueString b
  /\ boundaryToModify a = boundaryToModify b.

(** Hover events handled one after the other. *)
Definition hoverAll (st : IDateRangeInputState) (hoveredRanges : list (option DateRange))
  : IDateRangeInputState :=
  fold_left (fun s r => fst (handleHoverChange s r)) hoveredRanges st.

(** No hover string is shown. *)
Definition hoverFree (st : IDateRangeInputState) : Prop :=
  notNullish (startDateHoverValueString st) = false
  /\ notNullish (endDateHoverValueString st) = false.

(** The texts [render] hands to the two input elements: the two values and
    the two placeholders. *)
Definition displayed (v : View) : string * string * string * string :=
  (orEmpty (startDateString v), orEmpty (endDateString v),
   startDatePlaceholder v, endDatePlaceholder v).

(** States reached from the constructor's by events in any order. *)
Inductive reachable : IDateRangeInputState -> Prop :=
| reachable_init : reachable initialState
| reachable_step st ev : reachable st -> reachable (fst (handle st ev)).

(** States reached by events delivered the way input elements deliver
    them: a field gets its focus event only when the other field is not
    marked focused (it got its blur event first). *)
Inductive reachableBlurFirst : IDateRangeInputState -> Prop :=
| blurFirst_init : reachableBlurFirst initialState
| blurFirst_step st ev :
    reachableBlurFirst st ->
    (forall b, ev = InputFocus b -> focusedOf (other b) st = false) ->
    reachableBlurFirst (fst (handle st ev)).

(** A value slot holds [null] only while its field is marked focused and
    the text of the field is empty. *)
Definition nullOnlyWhileEditing (st : IDateRangeInputState) : Prop :=
  forall b,
    valueOf b st = None ->
    focusedOf b st = true /\ isInputEmpty (valueStringOf b st) = true.

(** States reached by events in which a field gets a change event only
    while it is marked focused. *)
Inductive reachableTypingFocused : IDateRangeInputState -> Prop :=
| typingFocused_init : reachableTypingFocused initialState
| typingFocused_step st ev :
    reachableTypingFocused st ->
    (forall b text, ev = InputChange b text -> focusedOf b st = true) ->
    reachableTypingFocused (fst (handle st ev)).

End DateRangeInput.

(** ** The [DateRange] class of [dateRange.ts] *)

Module DateRangeClass.

(** The two private fields; a date left out of the constructor is missing
    ([None]). *)
Record DateRange := {
  start : option JSDate;
  end' : option JSDate
}.

(** Modelled from the spec: [clone] of [common/dateUtils] is not among the
    sources; the copy of a date is the same instant, and the copy of a
    missing date is missing. *)
Definition clone (d : option JSDate) : option JSDate := d.

(** [d.setHours(0, 0, 0, 0)]: midnight of the day of [d]. *)
Definition setHoursZero (d : JSDate) : JSDate := dayOf d * msPerDay.

(** [containsDate]: [None] is the [TypeError] of [setHours] on a boundary
    that is missing. *)
Definition containsDate (r : DateRange) (date : option JSDate) (exclusive : bool)
  : option bool :=
  match date with
  | None => Some false
  | Some d =>
      match clone (start r), clone (end' r) with
      | Some s, Some e =>
          let day := setHoursZero d in
          let start := setHoursZero s in
          let end_ := setHoursZero e in
          let isDayInRangeInclusive := (start <=? day) && (day <=? end_) in
          let isDayInRangeExclusive :=
            isDayInRangeInclusive
            && negb (areSameDay (Some start) (Some day))
            && negb (areSameDay (Some day) (Some end_)) in
          Some (if exclusive then isDayInRangeExclusive else isDayInRangeInclusive)
      | _, _ => None
      end
  end.

Definition toDateArray (r : DateRange) : option JSDate * option JSDate :=
  (clone (start r), clone (end' r)).

(** [containsRange]: both boundaries of the inner range are looked at, also
    when the first one is not contained. *)
Definition containsRange (r : DateRange) (innerRange : option DateRange) : option bool :=
  match innerRange with
  | None => Some false
  | Some inner =>
      let '(innerRangeStart, innerRangeEnd) := toDateArray inner in
      let containsStartDate :=
        match innerRangeStart with
        | None => Some true
        | Some _ => containsDate r innerRangeStart false
        end in
      let containsEndDate :=
        match innerRangeEnd with
        | None => Some true
        | Some _ => containsDate r innerRangeEnd false
        end in
      match containsStartDate, containsEndDate with
      | Some a, Some b => Some (a && b)
      | _, _ => None
      end
  end.

(** [getMidpoint]: [start + (end - start) * 0.5], cut to a whole number of
    milliseconds by the [Date] constructor.  The arithmetic of the source is
    in floating point and is exact for two instants below [2 ^ 52]
    milliseconds in size, which is where this definition stands for it. *)
Definition getMidpoint (r : DateRange) : option JSDate :=
  match start r, end' r with
  | Some s, Some e => Some (Z.quot (2 * s + (e - s)) 2)
  | _, _ => None
  end.

End DateRangeClass.

(** ** moment.js under the format [YYYY-MM-DD]

    The instance the scenarios are run with: a text parses when it is four
    digits, a dash, two digits, a dash and two digits that name a day of the
    calendar, to midnight of that day.  Under another format nothing
    parses. *)

Module Iso.

Definition isoFormat : string := "YYYY-MM-DD".

Definition digit (c : ascii) : option Z :=
  let n := Z.of_nat (nat_of_ascii c) in
  if (48 <=? n) && (n <=? 57) then Some (n - 48) else None.

Definition number (cs : list ascii) : option Z :=
  fold_left
    (fun acc c =>
       match acc, digit c with
       | Some a, Some d => Some (10 * a + d)
       | _, _ => None
       end)
    cs (Some 0).

Definition isLeapYear (y : Z) : bool :=
  ((y mod 4 =? 0) && negb (y mod 100 =? 0)) || (y mod 400 =? 0).

Definition daysInMonth (y m : Z) : Z :=
  if m =? 2 then (if isLeapYear y then 29 else 28)
  else if (m =? 4) || (m =? 6) || (m =? 9) || (m =? 11) then 30
  else 31.

(** Days from 1970-01-01 to the given day of the proleptic Gregorian
    calendar. *)
Definition daysFromCivil (y m d : Z) : Z :=
  let y' := if m <=? 2 then y - 1 else y in
  let era := y' / 400 in
  let yoe := y' - era * 400 in
  let doy := (153 * (if 2 <? m then m - 3 else m + 9) + 2) / 5 + d - 1 in
  let doe := yoe * 365 + yoe / 4 - yoe / 100 + doy in
  era * 146097 + doe - 719468.

Definition civilFromDays (z : Z) : Z * Z * Z :=
  let z' := z + 719468 in
  let era := z' / 146097 in
  let doe := z' - era * 146097 in
  let yoe := (doe - doe / 1460 + doe / 36524 - doe / 146096) / 365 in
  let y := yoe + era * 400 in
  let doy := doe - (365 * yoe + yoe / 4 - yoe / 100) in
  let mp := (5 * doy + 2) / 153 in
  let d := doy - (153 * mp + 2) / 5 + 1 in
  let m := if mp <? 10 then mp + 3 else mp - 9 in
  (if m <=? 2 then y + 1 else y, m, d).

Definition parseFields (s : string) : option (Z * Z * Z) :=
  match s with
  | String y1 (String y2 (String y3 (String y4 (String dash1
      (String m1 (String m2 (String dash2
        (String d1 (String d2 EmptyString))))))))) =>
      if Ascii.eqb dash1 "-"%char && Ascii.eqb dash2 "-"%char then
        match number [y1; y2; y3; y4], number [m1; m2], number [d1; d2] with
        | Some y, Some m, Some d => Some (y, m, d)
        | _, _, _ => None
        end
      else None
  | _ => None
  end.

Definition momentParse (text fmt : string) : Moment :=
  if String.eqb fmt isoFormat then
    match parseFields text with
    | Some (y, m, d) =>
        if (1 <=? m) && (m <=? 12) && (1 <=? d) && (d <=? daysInMonth y m)
        then MDate (daysFromCivil y m d * msPerDay)
        else MInvalid
    | None => MInvalid
    end
  else MInvalid.

Definition digitString (n : Z) : string :=
  String (ascii_of_nat (Z.to_nat (48 + n mod 10))) EmptyString.

Definition pad2 (n : Z) : string :=
  (digitString (n / 10) ++ digitString n)%string.

Definition pad4 (n : Z) : string :=
  (digitString (n / 1000) ++ digitString (n / 100) ++ pad2 n)%string.

Definition momentFormat (t : Z) (fmt : string) : string :=
  if String.eqb fmt isoFormat then
    let '(y, m, d) := civilFromDays (dayOf t) in
    (pad4 y ++ "-" ++ pad2 m ++ "-" ++ pad2 d)%string
  else fmt.

(** Midnight of a day of the calendar, as a [Date]. *)
Definition date (y m d : Z) : JSDate := daysFromCivil y m d * msPerDay.

(** Noon of a day of the calendar: the days the picker reports. *)
Definition noon (y m d : Z) : JSDate := date y m d + 12 * 3600000.

End Iso.

(** ** The scenario of the specification *)

Module Scenario.

(** Format [YYYY-MM-DD], [minDate] 2020-01-01, [maxDate] 2020-12-31, no
    [value] and no [defaultValue]. *)
Definition props : IDateRangeInputProps :=
  defaultProps (Iso.date 2020 1 1) (Iso.date 2020 12 31).

Definition init : IDateRangeInputState := initialState props.

(** Props with only an upper bound. *)
Definition onlyMaxDate (hi : JSDate) : IDateRangeInputProps :=
  {| allowSingleDayRange := false;
     allowUnboundedDateRange := false;
     closeOnSelection := false;
     disabled := false;
     defaultValue := None;
     format := Iso.isoFormat;
     invalidDateMessage := "Invalid date";
     invalidEndDateMessage := "Invalid end date";
     maxDate := Some hi;
     minDate := None;
     openOnFocus := true;
     outOfRangeMessage := "Out of range";
     selectAllOnFocus := true;
     value := None |}.

Definition handle := handle Iso.momentParse Iso.momentFormat props.
Definition run := run Iso.momentParse Iso.momentFormat props.
Definition render := render Iso.momentParse Iso.momentFormat props.

(** Focus the start field, type 2020-02-10 and leave the field. *)
Definition startTyped : list Event :=
  InputFocus START :: typing START EmptyString "2020-02-10" ++ [InputBlur START].

(** Then focus the end field, type 2020-02-05 and leave the field. *)
Definition endTyped : list Event :=
  InputFocus END :: typing END EmptyString "2020-02-05" ++ [InputBlur END].

(** The states after the first and after the second of these. *)
Definition afterStart : IDateRangeInputState := fst (run init startTyped).
Definition afterEnd : IDateRangeInputState := fst (run afterStart endTyped).

(** A text typed into a field that is then left. *)
Definition typedAndLeft (b : DateRangeBoundary) (text : string) : list Event :=
  InputFocus b :: typing b EmptyString text ++ [InputBlur b].

(** A field that holds a rejected text gets the focus again. *)
Definition refocused (b : DateRangeBoundary) : IDateRangeInputState :=
  fst (run init (typedAndLeft b "abc" ++ [InputFocus b])).

(** The start field holds the typed 2020-03-02, the end field nothing, and
    the pointer is over the first of March: the picker reports the range
    from that day to the second, its days at noon. *)
Definition startOnly : IDateRangeInputState :=
  fst (run init (InputFocus START :: typing START EmptyString "2020-03-02")).

Definition hoveredBefore : DateRange :=
  (Some (Iso.noon 2020 3 1), Some (Iso.noon 2020 3 2)).

(** Under a [value] prop, with [closeOnSelection]. *)
Definition controlledProps : IDateRangeInputProps :=
  {| allowSingleDayRange := false;
     allowUnboundedDateRange := false;
     closeOnSelection := true;
     disabled := false;
     defaultValue := None;
     format := Iso.isoFormat;
     invalidDateMessage := "Invalid date";
     invalidEndDateMessage := "Invalid end date";
     maxDate := Some (Iso.date 2020 12 31);
     minDate := Some (Iso.date 2020 1 1);
     openOnFocus := true;
     outOfRangeMessage := "Out of range";
     selectAllOnFocus := true;
     value := Some (Some (Iso.date 2020 3 1), None) |}.

(** The text of the focused start field has been deleted. *)
Definition startCleared : IDateRangeInputState :=
  fst (run init [InputFocus START; InputChange START EmptyString]).

(** The calendar has reported the range from the first to the fifth of
    March. *)
Definition picked : DateRange := (Some (Iso.noon 2020 3 1), Some (Iso.noon 2020 3 5)).

Definition afterPicked : IDateRangeInputState :=
  fst (handleDateRangeChange Iso.momentFormat props afterStart picked).

(** The first week of March 2020 and the whole month. *)
Definition firstWeek : DateRangeClass.DateRange :=
  {| DateRangeClass.start := Some (Iso.noon 2020 3 1);
     DateRangeClass.end' := Some (Iso.date 2020 3 7) |}.

Definition march : DateRangeClass.DateRange :=
  {| DateRangeClass.start := Some (Iso.date 2020 3 1);
     DateRangeClass.end' := Some (Iso.noon 2020 3 31) |}.

End Scenario.

(** * Properties *)

(** ** The bounds check *)

Lemma isBetweenDays_iff t lo hi :
  isBetweenDays (MDate t) lo hi = true <-> dayOf lo <= dayOf t <= dayOf hi.
Proof.
  unfold isBetweenDays.
  rewrite andb_true_iff, !Z.leb_le.
  reflexivity.
Qed.

(** C6, as the code has it: with both bounds given the check is inclusive
    at both ends, by calendar day; with either bound missing it accepts
    every value, the other bound is not looked at. *)
Theorem dateIsInRange_bounds (props : IDateRangeInputProps) :
  (minDate props = None \/ maxDate props = None ->
   forall v, dateIsInRange props v = true)
  /\ (forall lo hi t,
        minDate props = Some lo -> maxDate props = Some hi ->
        (dateIsInRange props (Some (MDate t)) = true
         <-> dayOf lo <= dayOf t <= dayOf hi)).
Proof.
  split.
  - intros [H | H] v; unfold dateIsInRange; rewrite H.
    + reflexivity.
    + destruct (minDate props); reflexivity.
  - intros lo hi t Hlo Hhi.
    unfold dateIsInRange.
    rewrite Hlo, Hhi.
    apply isBetweenDays_iff.
Qed.

(** The bounds check at the first day of 2021, under an upper bound alone
    and under both bounds of the scenario. *)
Lemma dateIsInRange_bounds_witness :
  dateIsInRange (Scenario.onlyMaxDate (Iso.date 2020 12 31)) (Some (MDate (Iso.date 2021 1 1))) = true
  /\ (dateIsInRange Scenario.props (Some (MDate (Iso.date 2020 12 31))) = true
      <-> dayOf (Iso.date 2020 1 1) <= dayOf (Iso.date 2020 12 31) <= dayOf (Iso.date 2020 12 31)).
Proof.
  split.
  - apply (proj1 (dateIsInRange_bounds (Scenario.onlyMaxDate (Iso.date 2020 12 31)))).
    left; reflexivity.
  - apply (proj2 (dateIsInRange_bounds Scenario.props)); reflexivity.
Defined.

(** C6 as stated fails: with [minDate] missing and [maxDate] 2020-12-31,
    the first day of 2021 is in range. *)
Lemma dateIsInRange_ignores_single_bound :
  ~ (forall props hi t,
        minDate props = None -> maxDate props = Some hi ->
        (dateIsInRange props (Some (MDate t)) = true <-> dayOf t <= dayOf hi)).
Proof.
  intros H.
  specialize (H (Scenario.onlyMaxDate (Iso.date 2020 12 31)) (Iso.date 2020 12 31)
                (Iso.date 2021 1 1) eq_refl eq_refl).
  destruct H as [H _].
  specialize (H eq_refl).
  vm_compute in H.
  apply H; reflexivity.
Qed.

(** ** Days between two moments *)

(** For two moments at the same time of day the difference in days is zero
    exactly when they are on the same day. *)
Lemma diffDaysIsZero_same_time (a b k : Z) :
  0 <= k < msPerDay ->
  diffDaysIsZero (MDate (a * msPerDay + k)) (MDate (b * msPerDay + k))
  = areSameDay (Some (a * msPerDay + k)) (Some (b * msPerDay + k)).
Proof.
  intros Hk.
  unfold diffDaysIsZero, areSameDay, dayOf.
  replace (a * msPerDay + k - (b * msPerDay + k)) with ((a - b) * msPerDay) by ring.
  rewrite Z.quot_mul by (unfold msPerDay; lia).
  rewrite !Z.div_add_l by (unfold msPerDay; lia).
  rewrite (Z.div_small k msPerDay) by exact Hk.
  rewrite !Z.add_0_r.
  destruct (Z.eqb_spec (a - b) 0), (Z.eqb_spec a b); try reflexivity; lia.
Qed.

(** ** The range handed to the calendar *)

(** C10: when both stored values are valid and in range and the end is
    strictly before the start, the calendar is given the start and no end. *)
Theorem getCurrentDateRange_end_before_start
    (props : IDateRangeInputProps) (st : IDateRangeInputState) (s e : Z) :
  startDateValue st = Some (MDate s) ->
  endDateValue st = Some (MDate e) ->
  dateIsInRange props (Some (MDate s)) = true ->
  dateIsInRange props (Some (MDate e)) = true ->
  e < s ->
  getCurrentDateRange props st = (Some s, None).
Proof.
  intros Hs He Hsr Her Hlt.
  unfold getCurrentDateRange, isDateValidAndInRange.
  rewrite Hs, He; simpl.
  rewrite Hsr, Her; simpl.
  apply Z.ltb_lt in Hlt.
  rewrite Hlt.
  reflexivity.
Qed.

(** The range handed to the calendar at the end of the scenario. *)
Lemma getCurrentDateRange_end_before_start_witness :
  getCurrentDateRange Scenario.props Scenario.afterEnd = (Some (Iso.date 2020 2 10), None).
Proof.
  apply (getCurrentDateRange_end_before_start Scenario.props Scenario.afterEnd
           (Iso.date 2020 2 10) (Iso.date 2020 2 5)).
  - reflexivity.
  - reflexivity.
  - reflexivity.
  - reflexivity.
  - reflexivity.
Defined.

(** ** The handlers, for any parsing and printing *)

Section Handlers.

Variable momentParse : string -> string -> Moment.
Variable momentFormat : Z -> string -> string.
Variable props : IDateRangeInputProps.

Local Abbreviation handle' := (handle momentParse momentFormat props).
Local Abbreviation handleHoverChange' := (handleHoverChange momentFormat props).
Local Abbreviation handleDateRangeChange' := (handleDateRangeChange momentFormat props).
Local Abbreviation handleGenericInputChange' := (handleGenericInputChange momentParse props).
Local Abbreviation handleGenericInputBlur' := (handleGenericInputBlur momentParse momentFormat props).
Local Abbreviation handleGenericInputFocus' := (handleGenericInputFocus momentFormat props).
Local Abbreviation reachableBlurFirst' := (reachableBlurFirst momentParse momentFormat props).

(** *** Calendar selection *)

(** C8: a selection reported by the calendar is stored in both value slots,
    and the focus goes to the start field when the start is missing, else
    to the end field when the end is missing; with both present the popover
    closes under [closeOnSelection], and otherwise the field focused most
    recently keeps the focus. *)
Theorem handleDateRangeChange_focus
    (st : IDateRangeInputState) (startDate endDate : option JSDate) :
  let st' := fst (handleDateRangeChange' st (startDate, endDate)) in
  startDateValue st' = Some (fromDateToMoment startDate)
  /\ endDateValue st' = Some (fromDateToMoment endDate)
  /\ (startDate = None ->
      isStartDateInputFocused st' = true /\ isEndDateInputFocused st' = false)
  /\ (startDate <> None -> endDate = None ->
      isStartDateInputFocused st' = false /\ isEndDateInputFocused st' = true)
  /\ (startDate <> None -> endDate <> None -> closeOnSelection props = true ->
      isOpen st' = false
      /\ isStartDateInputFocused st' = false /\ isEndDateInputFocused st' = false)
  /\ (startDate <> None -> endDate <> None -> closeOnSelection props = false ->
      forall b, mostRecentlyFocusedField st = Some b ->
      isOpen st' = true
      /\ focusedOf b st' = true /\ focusedOf (other b) st' = false).
Proof.
  unfold handleDateRangeChange.
  destruct startDate as [s|], endDate as [e|];
    destruct (closeOnSelection props) eqn:Hclose;
    destruct (mostRecentlyFocusedField st) as [[|]|] eqn:Hrecent;
    simpl; repeat match goal with |- _ /\ _ => split end;
    try reflexivity; try congruence; try (intros; split; reflexivity).
  all: try (intros; repeat split; reflexivity).
  all: intros _ _ _ b Hb; inversion Hb; subst b; simpl; auto.
Qed.

(** *** Focus flags *)

Lemma handle_keeps_atMostOneFocused (st : IDateRangeInputState) (ev : Event) :
  atMostOneFocused st ->
  (forall b, ev = InputFocus b -> focusedOf (other b) st = false) ->
  atMostOneFocused (fst (handle' st ev)).
Proof.
  unfold atMostOneFocused.
  intros Hst Hfocus.
  destruct ev as [b | b | b text | k sh | | | | [sd ed] | r | ]; simpl.
  - specialize (Hfocus b eq_refl).
    destruct b; simpl in Hfocus;
      unfold handleStartDateInputFocus, handleEndDateInputFocus,
        handleGenericInputFocus;
      destruct (openOnFocus props); simpl; rewrite Hfocus; intros [? ?]; discriminate.
  - destruct b;
      unfold handleStartDateInputBlur, handleEndDateInputBlur,
        handleGenericInputBlur;
      destruct (isInputEmpty _); simpl;
      try (destruct (didInputChangeToInvalidState _ _ _ _ _); simpl);
      try (destruct (value props); simpl);
      intros [? ?]; discriminate.
  - destruct b;
      unfold handleStartDateInputChange, handleEndDateInputChange,
        handleGenericInputChange;
      destruct (Nat.eqb _ 0); simpl; try assumption;
      destruct (isValid _ && dateIsInRange _ _); simpl; try assumption;
      destruct (value props); simpl; assumption.
  - unfold handleGenericInputKeyDown.
    match goal with |- context [if ?c then _ else _] => destruct c end;
      simpl; assumption.
  - assumption.
  - unfold handleIconClick.
    destruct (isOpen st); simpl; assumption.
  - assumption.
  - unfold handleDateRangeChange.
    destruct sd, ed; simpl; try (intros [? ?]; discriminate).
    destruct (closeOnSelection props); simpl; try (intros [? ?]; discriminate).
    destruct (mostRecentlyFocusedField st) as [[|]|]; simpl;
      intros [? ?]; discriminate.
  - unfold handleHoverChange.
    destruct r as [[hs he]|]; simpl; assumption.
  - unfold handleDayMouseEnter.
    destruct (mostRecentlyFocusedField st) as [[|]|]; simpl; try assumption;
      destruct (isStartDateInputFocused st) eqn:Es;
      destruct (isEndDateInputFocused st) eqn:Ee; simpl;
      rewrite ?Es, ?Ee; intros [? ?]; try discriminate.
    all: apply Hst; split; reflexivity.
Qed.

Lemma initialState_atMostOneFocused : atMostOneFocused (initialState props).
Proof.
  unfold atMostOneFocused, initialState.
  destruct (getDefaultDateRange props); simpl.
  intros [? _]; discriminate.
Qed.

(** C5, as the code has it: the focus handler marks its own field and
    leaves the other field's mark alone, so the exclusion holds in the
    states reached when no field gets a focus event while the other field
    is still marked focused. *)
Theorem reachableBlurFirst_atMostOneFocused (st : IDateRangeInputState) :
  reachableBlurFirst' st -> atMostOneFocused st.
Proof.
  induction 1 as [| st ev Hreach IH Hfocus].
  - apply initialState_atMostOneFocused.
  - apply handle_keeps_atMostOneFocused; assumption.
Qed.

(** *** Hover previews *)

Lemma handleHoverChange_sameApartFromHover
    (st : IDateRangeInputState) (hoveredRange : option DateRange) :
  sameApartFromHover st (fst (handleHoverChange' st hoveredRange)).
Proof.
  unfold handleHoverChange, sameApartFromHover.
  destruct hoveredRange as [[hs he]|]; simpl; repeat split; reflexivity.
Qed.

Lemma hoverFree_after_clear (st : IDateRangeInputState) :
  hoverFree (fst (handleHoverChange' st None)).
Proof.
  split; reflexivity.
Qed.

(** Without hover strings, what the two fields show is decided by the slots
    a hover event leaves alone. *)
Lemma display_sameApartFromHover (a b : IDateRangeInputState) :
  sameApartFromHover a b -> hoverFree a -> hoverFree b ->
  renderStartDateString momentFormat props a = renderStartDateString momentFormat props b
  /\ renderEndDateString momentParse momentFormat props a
     = renderEndDateString momentParse momentFormat props b
  /\ option_map displayed (render momentParse momentFormat props a)
     = option_map displayed (render momentParse momentFormat props b).
Proof.
  intros (Hopen & Hrecent & Hsf & Hsv & Hss & Hef & Hev & Hes & Hbm) [Has Hae] [Hbs Hbe].
  assert (Hstart :
    renderStartDateString momentFormat props a = renderStartDateString momentFormat props b).
  { unfold renderStartDateString.
    rewrite Has, Hbs, Hsf, Hss, Hsv; reflexivity. }
  assert (HstartV :
    renderStartDateValue momentParse props a = renderStartDateValue momentParse props b).
  { unfold renderStartDateValue; rewrite Hsf, Hss, Hsv; reflexivity. }
  assert (HendV :
    renderEndDateValue momentParse props a = renderEndDateValue momentParse props b).
  { unfold renderEndDateValue; rewrite Hef, Hes, Hev; reflexivity. }
  assert (Hend :
    renderEndDateString momentParse momentFormat props a
    = renderEndDateString momentParse momentFormat props b).
  { unfold renderEndDateString.
    rewrite Hae, Hbe, Hef, Hes, Hev, HendV, HstartV; reflexivity. }
  repeat split; try assumption.
  unfold render.
  rewrite Hend, Hstart, HstartV, HendV.
  destruct (renderEndDateString momentParse momentFormat props b) as [endS|]; [|reflexivity].
  destruct (renderStartDateValue momentParse props b) as [s|]; [|reflexivity].
  destruct (renderEndDateValue momentParse props b) as [e|]; [|reflexivity].
  unfold displayed, getStartDateInputPlaceholder, getEndDateInputPlaceholder; simpl.
  rewrite Hsf, Hef; reflexivity.
Qed.

Lemma sameApartFromHover_trans (a b c : IDateRangeInputState) :
  sameApartFromHover a b -> sameApartFromHover b c -> sameApartFromHover a c.
Proof.
  unfold sameApartFromHover.
  intros (?&?&?&?&?&?&?&?&?) (?&?&?&?&?&?&?&?&?).
  repeat split; congruence.
Qed.

Lemma hoverAll_sameApartFromHover
    (hoveredRanges : list (option DateRange)) (st : IDateRangeInputState) :
  sameApartFromHover st (hoverAll momentFormat props st hoveredRanges).
Proof.
  revert st.
  induction hoveredRanges as [| r rest IH]; intros st; simpl.
  - unfold sameApartFromHover; repeat split; reflexivity.
  - apply sameApartFromHover_trans with (b := fst (handleHoverChange' st r)).
    + apply handleHoverChange_sameApartFromHover.
    + apply IH.
Qed.

(** C9: a hover event, with a range or with [null], changes neither stored
    value, nor any slot other than the two hover strings and the mark of
    the last focus change; and when the hover that began with it is cleared,
    after any further hover events, both fields show what they showed
    before it began. *)
Theorem handleHoverChange_preview_only
    (st : IDateRangeInputState) (hoveredRange : option DateRange)
    (further : list (option DateRange)) :
  let st1 := fst (handleHoverChange' st hoveredRange) in
  let st2 := fst (handleHoverChange' (hoverAll momentFormat props st1 further) None) in
  startDateValue st1 = startDateValue st
  /\ endDateValue st1 = endDateValue st
  /\ sameApartFromHover st st1
  /\ (hoverFree st ->
      renderStartDateString momentFormat props st2
      = renderStartDateString momentFormat props st
      /\ renderEndDateString momentParse momentFormat props st2
         = renderEndDateString momentParse momentFormat props st
      /\ option_map displayed (render momentParse momentFormat props st2)
         = option_map displayed (render momentParse momentFormat props st)).
Proof.
  intros st1 st2.
  pose proof (handleHoverChange_sameApartFromHover st hoveredRange) as H1.
  fold st1 in H1.
  assert (H12 : sameApartFromHover st st2).
  { apply sameApartFromHover_trans with (b := st1); [exact H1|].
    apply sameApartFromHover_trans with (b := hoverAll momentFormat props st1 further).
    - apply hoverAll_sameApartFromHover.
    - apply handleHoverChange_sameApartFromHover. }
  pose proof H1 as (Ho & Hr & Hsf & Hsv & Hss & Hef & Hev & Hes & Hb).
  split; [symmetry; exact Hsv|].
  split; [symmetry; exact Hev|].
  split; [exact H1|].
  intros Hfree.
  assert (Hshow := display_sameApartFromHover st st2 H12 Hfree
                     (hoverFree_after_clear (hoverAll momentFormat props st1 further))).
  destruct Hshow as (Hs & He & Hv).
  repeat split; symmetry; assumption.
Qed.

(** The focus calls of a hover event with a range: none unless exactly one
    stored value is a date or an invalid text; else one, decided by the
    difference in whole days between the hovered moment and the stored one
    on the side that is set. *)
Lemma handleHoverChange_focus_calls
    (st : IDateRangeInputState) (hoveredRange : DateRange) :
  let dest (hovered : Moment) (selected : option Moment) (continue flip : DateRangeBoundary) :=
    match selected with
    | Some m => if diffDaysIsZero hovered m then [RefFocus continue] else [RefFocus flip]
    | None => [RefFocus flip]
    end in
  snd (handleHoverChange' st (Some hoveredRange))
  = match isNull (startDateValue st), isNull (endDateValue st) with
    | false, true =>
        dest (fromDateToMoment (fst hoveredRange)) (startDateValue st) END START
    | true, false =>
        dest (fromDateToMoment (snd hoveredRange)) (endDateValue st) START END
    | _, _ => []
    end.
Proof.
  unfold handleHoverChange.
  destruct hoveredRange as [hs he]; simpl.
  destruct (isNull (startDateValue st)), (isNull (endDateValue st)); simpl;
    try reflexivity.
  - destruct (endDateValue st) as [m|]; [|reflexivity].
    destruct (diffDaysIsZero _ m); reflexivity.
  - destruct (startDateValue st) as [m|]; [|reflexivity].
    destruct (diffDaysIsZero _ m); reflexivity.
Qed.

(** *** Typing *)

Lemma length_zero_iff (text : string) :
  Nat.eqb (String.length text) 0 = true <-> text = EmptyString.
Proof.
  destruct text; simpl; split; intros H; try reflexivity; discriminate.
Qed.

(** C1, as the code has it: a change event never touches the other field's
    stored value; under a [value] prop a text that is a valid date in range
    leaves the stored value of its field alone; without a [value] prop
    every change event overwrites it, with [null] for an empty text and
    with the parsed moment, valid or not, for any other. *)
Theorem handleGenericInputChange_stored_value
    (st : IDateRangeInputState) (text : string) (key : DateRangeBoundary) :
  let st' := fst (handleGenericInputChange' st text key) in
  let v := momentParse text (format props) in
  valueOf (other key) st' = valueOf (other key) st
  /\ (value props <> None -> text <> EmptyString ->
      isValid v = true -> dateIsInRange props (Some v) = true ->
      valueOf key st' = valueOf key st)
  /\ (value props = None -> text = EmptyString -> valueOf key st' = None)
  /\ (value props = None -> text <> EmptyString -> valueOf key st' = Some v).
Proof.
  intros st' v; subst st' v.
  unfold handleGenericInputChange.
  destruct (Nat.eqb (String.length text) 0) eqn:Hlen.
  - apply length_zero_iff in Hlen.
    repeat match goal with |- _ /\ _ => split end;
      try (intros; congruence); destruct key; simpl; auto.
  - assert (Hne : text <> EmptyString).
    { intros Hempty; apply length_zero_iff in Hempty; congruence. }
    destruct (isValid (momentParse text (format props))) eqn:Hvalid;
      destruct (dateIsInRange props (Some (momentParse text (format props)))) eqn:Hrange;
      destruct (value props) eqn:Hvalue; simpl;
      repeat match goal with |- _ /\ _ => split end;
      try (intros; congruence); destruct key; simpl; auto;
      intros; congruence.
Qed.

(** *** Host callbacks *)

(** No handler calls [onChange] or [onError]: where a call belongs the
    source has a note that it is still to be written. *)
Lemma handle_calls_no_callback (st : IDateRangeInputState) (ev : Event) :
  existsb isCallback (snd (handle' st ev)) = false.
Proof.
  destruct ev as [b | b | b text | k sh | | | | [sd ed] | r | ]; simpl.
  - destruct b;
      unfold handleStartDateInputFocus, handleEndDateInputFocus, handleGenericInputFocus;
      simpl; destruct (selectAllOnFocus props); reflexivity.
  - destruct b;
      unfold handleStartDateInputBlur, handleEndDateInputBlur, handleGenericInputBlur;
      destruct (isInputEmpty _); simpl; try reflexivity;
      destruct (didInputChangeToInvalidState _ _ _ _ _); simpl; try reflexivity;
      destruct (negb (isValid _)); simpl; try reflexivity;
      destruct (negb (dateIsInRange _ _)); reflexivity.
  - destruct b;
      unfold handleStartDateInputChange, handleEndDateInputChange, handleGenericInputChange;
      destruct (Nat.eqb _ 0); simpl; try reflexivity;
      destruct (isValid _ && dateIsInRange _ _); reflexivity.
  - unfold handleGenericInputKeyDown.
    match goal with |- context [if ?c then _ else _] => destruct c end; reflexivity.
  - reflexivity.
  - unfold handleIconClick; destruct (isOpen st); reflexivity.
  - reflexivity.
  - unfold handleDateRangeChange.
    destruct sd, ed; simpl; try reflexivity.
    destruct (closeOnSelection props); simpl; try reflexivity.
    destruct (mostRecentlyFocusedField st) as [[|]|]; reflexivity.
  - unfold handleHoverChange.
    destruct r as [[hs he]|]; simpl; [|reflexivity].
    repeat match goal with |- context [if ?c then _ else _] => destruct c end;
      reflexivity.
  - unfold handleDayMouseEnter.
    destruct (mostRecentlyFocusedField st) as [[|]|]; simpl; try reflexivity;
      match goal with |- context [if ?c then _ else _] => destruct c end; reflexivity.
Qed.

End Handlers.

(** ** The handlers at work, on dates written [YYYY-MM-DD] *)

(** C1 as stated fails: the start field has the focus and nothing stored;
    the change event of the text 2020-02-10 stores that day. *)
Lemma typing_overwrites_stored_value :
  ~ (forall st b text,
        focusedOf b st = true ->
        valueOf b (fst (handleGenericInputChange Iso.momentParse Scenario.props st text b))
        = valueOf b st).
Proof.
  intros H.
  specialize (H (fst (Scenario.handle Scenario.init (InputFocus START)))
                START "2020-02-10" eq_refl).
  vm_compute in H.
  discriminate H.
Qed.

(** Change events of the start field, with and without a [value] prop. *)
Lemma handleGenericInputChange_stored_value_witness :
  let st := fst (Scenario.handle Scenario.init (InputFocus START)) in
  valueOf END (fst (handleGenericInputChange Iso.momentParse Scenario.props st "2020-02-10" START))
  = valueOf END st
  /\ valueOf START
       (fst (handleGenericInputChange Iso.momentParse Scenario.controlledProps st "2020-02-10" START))
     = valueOf START st
  /\ valueOf START (fst (handleGenericInputChange Iso.momentParse Scenario.props st EmptyString START))
     = None
  /\ valueOf START (fst (handleGenericInputChange Iso.momentParse Scenario.props st "2020-02-10" START))
     = Some (MDate (Iso.date 2020 2 10)).
Proof.
  intros st.
  split; [|split; [|split]].
  - apply (handleGenericInputChange_stored_value
             Iso.momentParse Scenario.props st "2020-02-10" START).
  - apply (handleGenericInputChange_stored_value
             Iso.momentParse Scenario.controlledProps st "2020-02-10" START).
    + discriminate.
    + discriminate.
    + reflexivity.
    + reflexivity.
  - apply (handleGenericInputChange_stored_value
             Iso.momentParse Scenario.props st EmptyString START).
    + reflexivity.
    + reflexivity.
  - apply (handleGenericInputChange_stored_value
             Iso.momentParse Scenario.props st "2020-02-10" START).
    + reflexivity.
    + discriminate.
Defined.

(** C2 fails on the code for the end field.  The end field holds a rejected
    text and shows the message for it; it gets the focus, which puts the
    print of the stored value into the field, and loses it again.  The text
    is what the field showed, yet it is compared with what the start field
    shows, and the handler takes the branch of a change to an invalid
    state.  The same events on the start field take the last branch.  No
    error is reported in either. *)
Theorem end_blur_compares_with_start_string :
  let stE := Scenario.refocused END in
  let stS := Scenario.refocused START in
  endDateValueString stE
  = SStr (getDateStringForDisplay Iso.momentFormat Scenario.props (endDateValue stE))
  /\ didInputChangeToInvalidState Iso.momentParse Iso.momentFormat Scenario.props
       stE (endDateValueString stE) = true
  /\ Scenario.handle stE (InputBlur END)
     = (setValueString END SNull (setValue END (Some MInvalid) (setFocused END false stE)), [])
  /\ startDateValueString stS
     = SStr (getDateStringForDisplay Iso.momentFormat Scenario.props (startDateValue stS))
  /\ didInputChangeToInvalidState Iso.momentParse Iso.momentFormat Scenario.props
       stS (startDateValueString stS) = false
  /\ Scenario.handle stS (InputBlur START) = (setFocused START false stS, []).
Proof.
  vm_compute.
  repeat split.
Qed.

(** C3 fails on the code: a text that is no date, and a date after
    [maxDate], are typed into the start field and the field is left.  The
    rejected value is stored and the field is marked as in error, and the
    only effect of the whole run is the selection of the text on focus:
    [onError] is not called. *)
Theorem rejected_text_calls_no_onError :
  let unparsed := Scenario.run Scenario.init (Scenario.typedAndLeft START "abc") in
  let outOfRange := Scenario.run Scenario.init (Scenario.typedAndLeft START "2021-05-05") in
  startDateValue (fst unparsed) = Some MInvalid
  /\ option_map isStartDateInputInErrorState (Scenario.render (fst unparsed)) = Some true
  /\ snd unparsed = [SelectAll]
  /\ startDateValue (fst outOfRange) = Some (MDate (Iso.date 2021 5 5))
  /\ dateIsInRange Scenario.props (startDateValue (fst outOfRange)) = false
  /\ option_map isStartDateInputInErrorState (Scenario.render (fst outOfRange)) = Some true
  /\ snd outOfRange = [SelectAll].
Proof.
  vm_compute.
  repeat split.
Qed.

(** C4: the scenario.  After 2020-02-10 is typed into the start field and
    the field is left, that day is stored and the field is not in error.
    After 2020-02-05 is then typed into the end field and the field is left,
    the end is before the start on another day, the end field is in error,
    the start field is not, and [onChange] was never called. *)
Theorem scenario_end_typed_before_start :
  startDateValue Scenario.afterStart = Some (MDate (Iso.date 2020 2 10))
  /\ option_map isStartDateInputInErrorState (Scenario.render Scenario.afterStart)
     = Some false
  /\ Scenario.afterEnd
     = fst (Scenario.run Scenario.init (Scenario.startTyped ++ Scenario.endTyped))
  /\ startDateValue Scenario.afterEnd = Some (MDate (Iso.date 2020 2 10))
  /\ endDateValue Scenario.afterEnd = Some (MDate (Iso.date 2020 2 5))
  /\ endIsBeforeStartOnAnotherDay (MDate (Iso.date 2020 2 10)) (MDate (Iso.date 2020 2 5))
     = true
  /\ option_map isEndDateInputInErrorState (Scenario.render Scenario.afterEnd) = Some true
  /\ option_map isStartDateInputInErrorState (Scenario.render Scenario.afterEnd)
     = Some false
  /\ existsb isOnChange
       (snd (Scenario.run Scenario.init (Scenario.startTyped ++ Scenario.endTyped)))
     = false.
Proof.
  vm_compute.
  repeat split.
Qed.

(** C5 as stated fails: from the first state, a focus event of the start
    field and then one of the end field leave both fields marked focused. *)
Lemma focus_event_keeps_other_mark :
  ~ (forall st ev,
        reachable Iso.momentParse Iso.momentFormat Scenario.props st ->
        atMostOneFocused (fst (Scenario.handle st ev))).
Proof.
  intros H.
  apply (H (fst (Scenario.handle Scenario.init (InputFocus START))) (InputFocus END)).
  - apply (reachable_step Iso.momentParse Iso.momentFormat Scenario.props
             Scenario.init (InputFocus START)).
    apply reachable_init.
  - split; reflexivity.
Qed.

(** The start field is focused and left, then the end field is focused. *)
Lemma reachableBlurFirst_atMostOneFocused_witness :
  atMostOneFocused
    (fst (handle Iso.momentParse Iso.momentFormat Scenario.props
       (fst (handle Iso.momentParse Iso.momentFormat Scenario.props
          (fst (handle Iso.momentParse Iso.momentFormat Scenario.props
             (initialState Scenario.props) (InputFocus START)))
          (InputBlur START)))
       (InputFocus END))).
Proof.
  apply (reachableBlurFirst_atMostOneFocused Iso.momentParse Iso.momentFormat Scenario.props).
  apply blurFirst_step.
  - apply blurFirst_step.
    + apply blurFirst_step.
      * apply blurFirst_init.
      * intros b Hb; inversion Hb; reflexivity.
    + intros b Hb; discriminate Hb.
  - intros b Hb; inversion Hb; reflexivity.
Defined.

(** C7 fails on the code: the start field holds the typed 2020-03-02
    (midnight), the end field nothing, and the hovered range starts on the
    first of March (noon).  The hovered start is another day than the stored
    start, yet it is less than a day before it, the difference in days
    truncates to zero, and the focus is sent to the end field. *)
Theorem hover_day_before_typed_start_focuses_end :
  startDateValue Scenario.startOnly = Some (MDate (Iso.date 2020 3 2))
  /\ isNull (endDateValue Scenario.startOnly) = true
  /\ areSameDay (fst Scenario.hoveredBefore) (Some (Iso.date 2020 3 2)) = false
  /\ snd (handleHoverChange Iso.momentFormat Scenario.props Scenario.startOnly
            (Some Scenario.hoveredBefore))
     = [RefFocus END].
Proof.
  vm_compute.
  repeat split.
Qed.

(** Four selections reported after the start field was the last one
    focused. *)
Lemma handleDateRangeChange_focus_witness :
  let change := handleDateRangeChange Iso.momentFormat in
  let d1 := Some (Iso.noon 2020 3 1) in
  let d2 := Some (Iso.noon 2020 3 5) in
  isStartDateInputFocused (fst (change Scenario.props Scenario.afterStart (None, d2))) = true
  /\ isEndDateInputFocused (fst (change Scenario.props Scenario.afterStart (d1, None))) = true
  /\ isOpen (fst (change Scenario.controlledProps Scenario.afterStart (d1, d2))) = false
  /\ focusedOf START (fst (change Scenario.props Scenario.afterStart (d1, d2))) = true.
Proof.
  intros change d1 d2.
  split; [|split; [|split]].
  - apply (handleDateRangeChange_focus Iso.momentFormat Scenario.props
             Scenario.afterStart None d2).
    reflexivity.
  - apply (handleDateRangeChange_focus Iso.momentFormat Scenario.props
             Scenario.afterStart d1 None).
    + discriminate.
    + reflexivity.
  - apply (handleDateRangeChange_focus Iso.momentFormat Scenario.controlledProps
             Scenario.afterStart d1 d2).
    + discriminate.
    + discriminate.
    + reflexivity.
  - apply (handleDateRangeChange_focus Iso.momentFormat Scenario.props
             Scenario.afterStart d1 d2).
    + discriminate.
    + discriminate.
    + reflexivity.
    + reflexivity.
Defined.

(** The hover of the first of March over the typed start, a second hover
    of the same range, and the end of the hover. *)
Lemma handleHoverChange_preview_only_witness :
  let hover := handleHoverChange Iso.momentFormat Scenario.props in
  let st1 := fst (hover Scenario.startOnly (Some Scenario.hoveredBefore)) in
  let st2 :=
    fst (hover (hoverAll Iso.momentFormat Scenario.props st1 [Some Scenario.hoveredBefore])
           None) in
  option_map displayed (Scenario.render st1)
  = Some ("2020-03-01", "2020-03-02", "2020-01-01", "End date")
  /\ option_map displayed (Scenario.render st2)
     = option_map displayed (Scenario.render Scenario.startOnly).
Proof.
  intros hover st1 st2.
  split.
  - reflexivity.
  - apply (handleHoverChange_preview_only Iso.momentParse Iso.momentFormat Scenario.props
             Scenario.startOnly (Some Scenario.hoveredBefore)
             [Some Scenario.hoveredBefore]).
    split; reflexivity.
Defined.

(** * Further properties *)

(** ** The range handed to the calendar *)

(** A date handed to the calendar is the stored value of its field, valid
    and in range, and when two dates are handed over the first is not after
    the second. *)
Theorem getCurrentDateRange_sound
    (props : IDateRangeInputProps) (st : IDateRangeInputState) :
  (forall s, fst (getCurrentDateRange props st) = Some s ->
     startDateValue st = Some (MDate s) /\ dateIsInRange props (Some (MDate s)) = true)
  /\ (forall e, snd (getCurrentDateRange props st) = Some e ->
       endDateValue st = Some (MDate e) /\ dateIsInRange props (Some (MDate e)) = true)
  /\ (forall s e, getCurrentDateRange props st = (Some s, Some e) -> s <= e).
Proof.
  unfold getCurrentDateRange, isDateValidAndInRange, fromMomentToDate, toDateRange.
  destruct (startDateValue st) as [[| |s0]|] eqn:Hs;
    destruct (endDateValue st) as [[| |e0]|] eqn:He; simpl;
    try destruct (dateIsInRange props (Some (MDate s0))) eqn:Hsr;
    try destruct (dateIsInRange props (Some (MDate e0))) eqn:Her;
    simpl;
    repeat match goal with
           | |- context [if ?c then _ else _] => destruct c eqn:?
           end;
    simpl; repeat split; intros; try discriminate;
    repeat match goal with
           | H : Some _ = Some _ |- _ => inversion H; subst; clear H
           | H : (_, _) = (_, _) |- _ => inversion H; subst; clear H
           end;
    try reflexivity; try assumption.
  apply Z.ltb_ge; assumption.
Qed.

(** With no usable start, the comparison of the end date with [null] is a
    comparison with zero: an end date before the epoch is not handed to the
    calendar, any other is. *)
Theorem getCurrentDateRange_end_alone
    (props : IDateRangeInputProps) (st : IDateRangeInputState) (e : Z) :
  isDateValidAndInRange props (startDateValue st) = false ->
  endDateValue st = Some (MDate e) ->
  dateIsInRange props (Some (MDate e)) = true ->
  getCurrentDateRange props st = (None, if e <? 0 then None else Some e).
Proof.
  intros Hs He Her.
  unfold getCurrentDateRange.
  rewrite Hs, He.
  unfold isDateValidAndInRange; simpl.
  rewrite Her; simpl.
  destruct (e <? 0); reflexivity.
Qed.

(** ** More on the handlers, for any parsing and printing *)

Section HandlersAtLarge.

Variable momentParse : string -> string -> Moment.
Variable momentFormat : Z -> string -> string.
Variable props : IDateRangeInputProps.

Local Abbreviation handle' := (handle momentParse momentFormat props).
Local Abbreviation render' := (render momentParse momentFormat props).
Local Abbreviation handleDateRangeChange' := (handleDateRangeChange momentFormat props).
Local Abbreviation handleGenericInputBlur' :=
  (handleGenericInputBlur momentParse momentFormat props).

(** *** Calendar selection *)

(** The calendar gets back the selection it reported, when the dates of the
    selection are in range, a start is not after its end, and an end alone
    is not before the epoch. *)
Theorem handleDateRangeChange_getCurrentDateRange
    (st : IDateRangeInputState) (dateRange : DateRange) :
  (forall s, fst dateRange = Some s -> dateIsInRange props (Some (MDate s)) = true) ->
  (forall e, snd dateRange = Some e -> dateIsInRange props (Some (MDate e)) = true) ->
  (forall s e, dateRange = (Some s, Some e) -> s <= e) ->
  (forall e, dateRange = (None, Some e) -> 0 <= e) ->
  getCurrentDateRange props (fst (handleDateRangeChange' st dateRange)) = dateRange.
Proof.
  destruct dateRange as [[s|] [e|]]; simpl; intros Hs He Hord Hepoch;
    unfold handleDateRangeChange, getCurrentDateRange, isDateValidAndInRange.
  - specialize (Hs s eq_refl); specialize (He e eq_refl); specialize (Hord s e eq_refl).
    destruct (closeOnSelection props);
      [|destruct (mostRecentlyFocusedField st) as [[|]|]]; simpl;
      rewrite Hs, He; simpl;
      (destruct (Z.ltb_spec e s); [lia | reflexivity]).
  - specialize (Hs s eq_refl).
    simpl; rewrite Hs; simpl.
    destruct (0 <? s); reflexivity.
  - specialize (He e eq_refl); specialize (Hepoch e eq_refl).
    simpl; rewrite He; simpl.
    destruct (Z.ltb_spec e 0); [lia | reflexivity].
  - reflexivity.
Qed.

(** A complete selection in range and in order, under [closeOnSelection]:
    the popover closes and [render] shows the two dates printed, neither
    field in error, and hands the selection to the calendar. *)
Theorem handleDateRangeChange_render (st : IDateRangeInputState) (s e : Z) :
  closeOnSelection props = true ->
  dateIsInRange props (Some (MDate s)) = true ->
  dateIsInRange props (Some (MDate e)) = true ->
  s <= e ->
  exists v,
    render' (fst (handleDateRangeChange' st (Some s, Some e))) = Some v
    /\ startDateString v = SStr (momentFormat s (format props))
    /\ endDateString v = SStr (momentFormat e (format props))
    /\ isStartDateInputInErrorState v = false
    /\ isEndDateInputInErrorState v = false
    /\ popoverIsOpen v = false
    /\ pickerValue v = (Some s, Some e).
Proof.
  intros Hclose Hs He Hord.
  assert (Hlt : (e <? s) = false) by (apply Z.ltb_ge; exact Hord).
  unfold render, handleDateRangeChange.
  rewrite Hclose; cbn [fst].
  unfold renderEndDateString, renderStartDateString, renderStartDateValue,
    renderEndDateValue, getCurrentDateRange, isDateValidAndInRange,
    endIsBeforeStartOnAnotherDay, getDateStringForDisplay.
  cbn -[dateIsInRange Z.ltb areSameDay].
  rewrite Hs, He, Hlt.
  cbn -[dateIsInRange Z.ltb areSameDay].
  rewrite ?Hs, ?He, ?Hlt.
  eexists; split; [reflexivity|].
  cbn -[dateIsInRange Z.ltb areSameDay].
  repeat split.
Qed.

(** After a selection [componentDidUpdate] asks for the focus of the field
    the selection marked, unless that input has it already, and for none
    when the selection closed the popover. *)
Theorem handleDateRangeChange_componentDidUpdate
    (st : IDateRangeInputState) (dateRange : DateRange)
    (activeElement : option DateRangeBoundary) :
  let target :=
    match dateRange with
    | (None, _) => Some START
    | (Some _, None) => Some END
    | (Some _, Some _) =>
        if closeOnSelection props then None
        else match mostRecentlyFocusedField st with
             | Some START => Some START
             | _ => Some END
             end
    end in
  componentDidUpdate (fst (handleDateRangeChange' st dateRange)) activeElement
  = match target with
    | None => []
    | Some b =>
        match activeElement with
        | Some a => if boundary_eqb a b then [] else [RefFocus b]
        | None => [RefFocus b]
        end
    end.
Proof.
  unfold handleDateRangeChange, componentDidUpdate.
  destruct dateRange as [[s|] [e|]];
    try destruct (closeOnSelection props);
    try destruct (mostRecentlyFocusedField st) as [[|]|];
    destruct activeElement as [[|]|]; reflexivity.
Qed.

(** *** Leaving a field *)

(** A blur event unmarks its field and touches neither the mark nor the
    stored value of the other field.  An empty text stores [moment(null)]
    and clears the text, with or without a [value] prop.  Under a [value]
    prop a text that is not empty leaves the stored value alone; without
    one it is overwritten, by the parsed text, exactly on a change to an
    invalid state. *)
Theorem handleGenericInputBlur_stored_value
    (st : IDateRangeInputState) (valueString : jstring) (key : DateRangeBoundary) :
  let st' := fst (handleGenericInputBlur' st valueString key) in
  focusedOf key st' = false
  /\ focusedOf (other key) st' = focusedOf (other key) st
  /\ valueOf (other key) st' = valueOf (other key) st
  /\ (isInputEmpty valueString = true ->
      valueOf key st' = Some MNullInput /\ valueStringOf key st' = SNull)
  /\ (isInputEmpty valueString = false -> value props <> None ->
      valueOf key st' = valueOf key st)
  /\ (isInputEmpty valueString = false -> value props = None ->
      valueOf key st'
      = if didInputChangeToInvalidState momentParse momentFormat props st valueString
        then Some (momentOf momentParse props valueString)
        else valueOf key st).
Proof.
  unfold handleGenericInputBlur.
  destruct (isInputEmpty valueString) eqn:Hempty;
    [|destruct (didInputChangeToInvalidState momentParse momentFormat props st valueString);
      destruct (value props) eqn:Hvalue];
    destruct key; simpl;
    repeat match goal with |- _ /\ _ => split end;
    try reflexivity; intros; try discriminate; try congruence;
    try (split; reflexivity).
Qed.


(** *** Keyboard navigation *)

(** Tab in the start field, or Shift and Tab in the end field, then the blur
    of that field and the focus of the other one: the calendar is told to
    modify the boundary of the field now focused, whatever the last hover
    left behind.  With the mark of a hover still set when the focus event
    comes, the boundary to modify stays what it was. *)
Theorem tab_hands_boundary_over
    (st : IDateRangeInputState) (b : DateRangeBoundary) (shiftKey : bool) :
  focusedOf b st = true ->
  (b = END -> shiftKey = true) ->
  (let st1 := fst (handle' st (InputKeyDown Keys_TAB shiftKey)) in
   let st2 := fst (handle' st1 (InputBlur b)) in
   let st3 := fst (handle' st2 (InputFocus (other b))) in
   boundaryToModify st3 = Some (other b)
   /\ mostRecentlyFocusedField st3 = Some (other b)
   /\ wasLastFocusChangeDueToHover st3 = false)
  /\ (wasLastFocusChangeDueToHover st = true ->
      let st2 := fst (handle' st (InputBlur b)) in
      let st3 := fst (handle' st2 (InputFocus (other b))) in
      boundaryToModify st3 = boundaryToModify st).
Proof.
  intros Hfocus Hshift.
  assert (Hwas :
    wasLastFocusChangeDueToHover
      (fst (handleGenericInputKeyDown st Keys_TAB shiftKey)) = false).
  { unfold handleGenericInputKeyDown.
    rewrite Z.eqb_refl.
    destruct b; simpl in Hfocus; rewrite Hfocus.
    - reflexivity.
    - rewrite (Hshift eq_refl).
      destruct (isStartDateInputFocused st); reflexivity. }
  split.
  - simpl.
    set (st1 := fst (handleGenericInputKeyDown st Keys_TAB shiftKey)) in *.
    clearbody st1.
    destruct b; simpl;
      unfold handleStartDateInputFocus, handleEndDateInputFocus, handleGenericInputFocus,
        handleStartDateInputBlur, handleEndDateInputBlur, handleGenericInputBlur;
      destruct (isInputEmpty _); simpl;
      try (destruct (didInputChangeToInvalidState _ _ _ _ _); simpl);
      try (destruct (value props); simpl);
      destruct (openOnFocus props); simpl; rewrite ?Hwas; repeat split.
  - intros Hhover.
    destruct b; simpl;
      unfold handleStartDateInputFocus, handleEndDateInputFocus, handleGenericInputFocus,
        handleStartDateInputBlur, handleEndDateInputBlur, handleGenericInputBlur;
      destruct (isInputEmpty _); simpl;
      try (destruct (didInputChangeToInvalidState _ _ _ _ _); simpl);
      try (destruct (value props); simpl);
      destruct (openOnFocus props); simpl; rewrite ?Hhover; reflexivity.
Qed.

(** *** What a field shows *)

(** A field takes the focus while no hover string is shown.  The start
    field goes on showing what it showed when it holds no date or a valid
    one in range; when it holds a date out of range the message gives way
    to the print of the date. *)
Theorem focus_start_shown_text (st : IDateRangeInputState) :
  isStartDateInputFocused st = false ->
  notNullish (startDateHoverValueString st) = false ->
  let st1 := fst (handle' st (InputFocus START)) in
  (isNull (startDateValue st) = true
   \/ isDateValidAndInRange props (startDateValue st) = true ->
   renderStartDateString momentFormat props st1 = renderStartDateString momentFormat props st)
  /\ (forall t,
        startDateValue st = Some (MDate t) ->
        dateIsInRange props (Some (MDate t)) = false ->
        renderStartDateString momentFormat props st = SStr (outOfRangeMessage props)
        /\ renderStartDateString momentFormat props st1
           = SStr (momentFormat t (format props))).
Proof.
  intros Hfocus Hhover; simpl.
  unfold handleStartDateInputFocus, handleGenericInputFocus, renderStartDateString.
  rewrite Hfocus, Hhover.
  destruct (openOnFocus props); simpl; rewrite Hhover;
    (split;
     [ intros [Hnull | Hok];
       [ destruct (startDateValue st) as [[| |t]|]; simpl in *;
         try discriminate; reflexivity
       | unfold isDateValidAndInRange in Hok;
         destruct (startDateValue st) as [[| |t]|]; simpl in *;
         try discriminate; rewrite Hok; reflexivity ]
     | intros t Ht Hout; rewrite Ht; simpl; rewrite Hout; simpl; split; reflexivity ]).
Qed.

(** While a field shows a hover string it is not marked in error, except
    that the end field is when the end is before the start on another
    day. *)
Theorem render_hover_not_in_error (st : IDateRangeInputState) (v : View) :
  render' st = Some v ->
  (notNullish (startDateHoverValueString st) = true ->
   isStartDateInputInErrorState v = false)
  /\ (notNullish (endDateHoverValueString st) = true ->
      forall s e,
        renderStartDateValue momentParse props st = Some s ->
        renderEndDateValue momentParse props st = Some e ->
        isEndDateInputInErrorState v = endIsBeforeStartOnAnotherDay s e).
Proof.
  unfold render.
  destruct (renderEndDateString momentParse momentFormat props st) as [endS|] eqn:HendS;
    [|discriminate].
  destruct (renderStartDateValue momentParse props st) as [s0|] eqn:Hs; [|discriminate].
  destruct (renderEndDateValue momentParse props st) as [e0|] eqn:He; [|discriminate].
  intros Hv; inversion Hv; subst v; clear Hv; simpl.
  split.
  - intros Hhover.
    unfold renderStartDateString; rewrite Hhover.
    destruct (startDateHoverValueString st) as [| |h]; try discriminate.
    simpl; rewrite String.eqb_refl, !orb_true_r; reflexivity.
  - intros Hhover s e Hs' He'.
    inversion Hs'; inversion He'; subst s e.
    unfold renderEndDateString in HendS; rewrite Hhover in HendS.
    inversion HendS; subst endS.
    destruct (endDateHoverValueString st) as [| |h]; try discriminate.
    simpl; rewrite String.eqb_refl, !orb_true_r; reflexivity.
Qed.

(** During a hover both fields show the display strings of the two hovered
    dates, whichever field is focused and whatever was typed into it. *)
Theorem handleHoverChange_shown_text
    (st : IDateRangeInputState) (hoveredRange : DateRange) :
  let st1 := fst (handleHoverChange momentFormat props st (Some hoveredRange)) in
  renderStartDateString momentFormat props st1
  = SStr (getDateStringForDisplay momentFormat props
            (Some (fromDateToMoment (fst hoveredRange))))
  /\ renderEndDateString momentParse momentFormat props st1
     = Some (SStr (getDateStringForDisplay momentFormat props
                     (Some (fromDateToMoment (snd hoveredRange))))).
Proof.
  destruct hoveredRange as [hs he].
  unfold handleHoverChange, renderStartDateString, renderEndDateString.
  split; reflexivity.
Qed.

(** A change event of a focused field: an empty text empties the field,
    also of a hover string; a text that is not empty is shown as typed
    unless a hover string is there, which then stays in the field. *)
Theorem handleGenericInputChange_shown_text
    (st : IDateRangeInputState) (text : string) :
  (isStartDateInputFocused st = true ->
   renderStartDateString momentFormat props (fst (handle' st (InputChange START text)))
   = if Nat.eqb (String.length text) 0 then SStr EmptyString
     else if notNullish (startDateHoverValueString st) then startDateHoverValueString st
     else SStr text)
  /\ (isEndDateInputFocused st = true ->
      renderEndDateString momentParse momentFormat props
        (fst (handle' st (InputChange END text)))
      = Some (if Nat.eqb (String.length text) 0 then SStr EmptyString
              else if notNullish (endDateHoverValueString st) then endDateHoverValueString st
              else SStr text)).
Proof.
  split; intros Hfocus; simpl;
    unfold handleStartDateInputChange, handleEndDateInputChange, handleGenericInputChange,
      renderStartDateString, renderEndDateString;
    destruct (Nat.eqb (String.length text) 0); simpl; rewrite ?Hfocus; try reflexivity;
    destruct (isValid _ && dateIsInRange _ _); simpl;
    try destruct (value props); simpl; rewrite ?Hfocus;
    match goal with
    | |- context [notNullish ?h] => destruct (notNullish h); reflexivity
    end.
Qed.

(** A field is focused and left while the other one is not marked, and the
    pointer then enters a day of the calendar: the field is marked focused
    again, the other one is not, the stored values are as the blur left
    them, and [componentDidUpdate] asks for the focus of the field unless
    its input has it. *)
Theorem dayMouseEnter_marks_last_focused
    (st : IDateRangeInputState) (b : DateRangeBoundary) :
  focusedOf (other b) st = false ->
  let st1 := fst (handle' st (InputFocus b)) in
  let st2 := fst (handle' st1 (InputBlur b)) in
  let st3 := fst (handle' st2 PickerDayMouseEnter) in
  focusedOf b st2 = false
  /\ focusedOf b st3 = true
  /\ focusedOf (other b) st3 = false
  /\ startDateValue st3 = startDateValue st2
  /\ endDateValue st3 = endDateValue st2
  /\ (forall activeElement,
        activeElement <> Some b -> componentDidUpdate st3 activeElement = [RefFocus b]).
Proof.
  intros Hother.
  destruct b; simpl in Hother; simpl;
    unfold handleStartDateInputFocus, handleEndDateInputFocus, handleGenericInputFocus,
      handleStartDateInputBlur, handleEndDateInputBlur, handleGenericInputBlur,
      handleDayMouseEnter, componentDidUpdate;
    destruct (openOnFocus props); destruct (value props); simpl;
    repeat (match goal with
            | |- context [if ?c then _ else _] => destruct c eqn:?
            end; simpl; rewrite ?Hother; simpl);
    repeat match goal with |- _ /\ _ => split end;
    try reflexivity; try assumption;
    rewrite ?Hother;
    intros [[|]|] Hactive; try reflexivity; congruence.
Qed.

(** *** What each event may change *)

(** The popover mark after an event: it is cleared by the close event of
    the popover and by a complete selection under [closeOnSelection]; it is
    set by a click on the icon, by any other selection, and by a focus event
    under [openOnFocus]; every other event leaves it. *)
Theorem handle_isOpen (st : IDateRangeInputState) (ev : Event) :
  isOpen (fst (handle' st ev))
  = match ev with
    | PopoverClose => false
    | PickerChange (Some _, Some _) => negb (closeOnSelection props)
    | PickerChange _ => true
    | IconClick => true
    | InputFocus _ => isOpen st || openOnFocus props
    | _ => isOpen st
    end.
Proof.
  destruct ev as [b | b | b text | k sh | | | | [sd ed] | r | ]; simpl.
  - destruct b;
      unfold handleStartDateInputFocus, handleEndDateInputFocus, handleGenericInputFocus;
      destruct (openOnFocus props); simpl;
      rewrite ?orb_true_r, ?orb_false_r; reflexivity.
  - destruct b;
      unfold handleStartDateInputBlur, handleEndDateInputBlur, handleGenericInputBlur;
      destruct (isInputEmpty _); simpl; try reflexivity;
      destruct (didInputChangeToInvalidState _ _ _ _ _); simpl; try reflexivity;
      destruct (value props); reflexivity.
  - destruct b;
      unfold handleStartDateInputChange, handleEndDateInputChange, handleGenericInputChange;
      destruct (Nat.eqb _ 0); simpl; try reflexivity;
      destruct (isValid _ && dateIsInRange _ _); simpl; try reflexivity;
      destruct (value props); reflexivity.
  - unfold handleGenericInputKeyDown.
    match goal with |- context [if ?c then _ else _] => destruct c end; reflexivity.
  - reflexivity.
  - unfold handleIconClick; destruct (isOpen st) eqn:Ho; simpl; congruence.
  - reflexivity.
  - unfold handleDateRangeChange.
    destruct sd, ed; simpl; try reflexivity.
    destruct (closeOnSelection props); simpl; try reflexivity.
    destruct (mostRecentlyFocusedField st) as [[|]|]; reflexivity.
  - unfold handleHoverChange.
    destruct r as [[hs he]|]; reflexivity.
  - unfold handleDayMouseEnter.
    destruct (mostRecentlyFocusedField st) as [[|]|]; simpl; try reflexivity;
      match goal with |- context [if ?c then _ else _] => destruct c end; reflexivity.
Qed.

(** The stored value of a field is changed by no event other than a change
    or a blur of that field and a selection in the calendar. *)
Theorem handle_keeps_stored_value
    (st : IDateRangeInputState) (ev : Event) (b : DateRangeBoundary) :
  (forall text, ev <> InputChange b text) ->
  ev <> InputBlur b ->
  (forall dateRange, ev <> PickerChange dateRange) ->
  valueOf b (fst (handle' st ev)) = valueOf b st.
Proof.
  intros Hchange Hblur Hpick.
  destruct ev as [b' | b' | b' text | k sh | | | | dr | r | ]; simpl.
  - destruct b';
      unfold handleStartDateInputFocus, handleEndDateInputFocus, handleGenericInputFocus;
      destruct (openOnFocus props); destruct b; reflexivity.
  - destruct b', b; try congruence;
      unfold handleStartDateInputBlur, handleEndDateInputBlur, handleGenericInputBlur;
      destruct (isInputEmpty _); simpl; try reflexivity;
      destruct (didInputChangeToInvalidState _ _ _ _ _); simpl; try reflexivity;
      destruct (value props); reflexivity.
  - destruct b', b; try (exfalso; apply (Hchange text); reflexivity);
      unfold handleStartDateInputChange, handleEndDateInputChange, handleGenericInputChange;
      destruct (Nat.eqb _ 0); simpl; try reflexivity;
      destruct (isValid _ && dateIsInRange _ _); simpl; try reflexivity;
      destruct (value props); reflexivity.
  - unfold handleGenericInputKeyDown.
    match goal with |- context [if ?c then _ else _] => destruct c end;
      destruct b; reflexivity.
  - reflexivity.
  - unfold handleIconClick; destruct (isOpen st); destruct b; reflexivity.
  - destruct b; reflexivity.
  - exfalso; apply (Hpick dr); reflexivity.
  - unfold handleHoverChange.
    destruct r as [[hs he]|]; destruct b; reflexivity.
  - unfold handleDayMouseEnter.
    destruct (mostRecentlyFocusedField st) as [[|]|]; simpl; try reflexivity;
      match goal with |- context [if ?c then _ else _] => destruct c end;
      destruct b; reflexivity.
Qed.

(** The boundary handed to the calendar as the one to modify, and the
    record of the field focused last, are changed by focus events only. *)
Theorem handle_keeps_boundaryToModify (st : IDateRangeInputState) (ev : Event) :
  (forall b, ev <> InputFocus b) ->
  boundaryToModify (fst (handle' st ev)) = boundaryToModify st
  /\ mostRecentlyFocusedField (fst (handle' st ev)) = mostRecentlyFocusedField st.
Proof.
  intros Hfocus.
  destruct ev as [b | b | b text | k sh | | | | [sd ed] | r | ]; simpl.
  - exfalso; apply (Hfocus b); reflexivity.
  - destruct b;
      unfold handleStartDateInputBlur, handleEndDateInputBlur, handleGenericInputBlur;
      destruct (isInputEmpty _); simpl; try (split; reflexivity);
      destruct (didInputChangeToInvalidState _ _ _ _ _); simpl; try (split; reflexivity);
      destruct (value props); split; reflexivity.
  - destruct b;
      unfold handleStartDateInputChange, handleEndDateInputChange, handleGenericInputChange;
      destruct (Nat.eqb _ 0); simpl; try (split; reflexivity);
      destruct (isValid _ && dateIsInRange _ _); simpl; try (split; reflexivity);
      destruct (value props); split; reflexivity.
  - unfold handleGenericInputKeyDown.
    match goal with |- context [if ?c then _ else _] => destruct c end;
      split; reflexivity.
  - split; reflexivity.
  - unfold handleIconClick; destruct (isOpen st); split; reflexivity.
  - split; reflexivity.
  - unfold handleDateRangeChange.
    destruct sd, ed; simpl; try (split; reflexivity).
    destruct (closeOnSelection props); simpl; try (split; reflexivity).
    destruct (mostRecentlyFocusedField st) as [[|]|]; split; reflexivity.
  - unfold handleHoverChange.
    destruct r as [[hs he]|]; split; reflexivity.
  - unfold handleDayMouseEnter.
    destruct (mostRecentlyFocusedField st) as [[|]|] eqn:Hrecent; simpl;
      try match goal with |- context [if ?c then _ else _] => destruct c end;
      simpl; split; congruence.
Qed.

(** *** [render] does not throw *)

Lemma nullOnlyWhileEditing_fields (st : IDateRangeInputState) :
  nullOnlyWhileEditing st <->
  (startDateValue st = None ->
   isStartDateInputFocused st = true /\ isInputEmpty (startDateValueString st) = true)
  /\ (endDateValue st = None ->
      isEndDateInputFocused st = true /\ isInputEmpty (endDateValueString st) = true).
Proof.
  unfold nullOnlyWhileEditing.
  split.
  - intros H; split; [apply (H START) | apply (H END)].
  - intros [Hs He] [|]; assumption.
Qed.

Lemma initialState_nullOnlyWhileEditing : nullOnlyWhileEditing (initialState props).
Proof.
  apply nullOnlyWhileEditing_fields.
  unfold initialState.
  destruct (getDefaultDateRange props); simpl.
  split; discriminate.
Qed.

Lemma handle_keeps_nullOnlyWhileEditing (st : IDateRangeInputState) (ev : Event) :
  value props = None ->
  nullOnlyWhileEditing st ->
  (forall b text, ev = InputChange b text -> focusedOf b st = true) ->
  nullOnlyWhileEditing (fst (handle' st ev)).
Proof.
  intros Hvalue Hinv Htyping.
  apply nullOnlyWhileEditing_fields in Hinv.
  destruct Hinv as [Hs He].
  apply nullOnlyWhileEditing_fields.
  destruct ev as [b | b | b text | k sh | | | | [sd ed] | r | ]; simpl.
  - destruct b;
      unfold handleStartDateInputFocus, handleEndDateInputFocus, handleGenericInputFocus;
      destruct (openOnFocus props); simpl; split; intros Hnone;
      try (rewrite Hnone; split; reflexivity); solve [auto].
  - destruct b;
      unfold handleStartDateInputBlur, handleEndDateInputBlur, handleGenericInputBlur;
      rewrite Hvalue;
      match goal with |- context [isInputEmpty ?x] => destruct (isInputEmpty x) eqn:Hempty end;
      simpl; try (split; [discriminate | assumption]);
      try (split; [assumption | discriminate]);
      destruct (didInputChangeToInvalidState _ _ _ _ _); simpl;
      try (split; [discriminate | assumption]);
      try (split; [assumption | discriminate]);
      split; intros Hnone; auto.
    + destruct (Hs Hnone) as [_ Hempty']; congruence.
    + destruct (He Hnone) as [_ Hempty']; congruence.
  - specialize (Htyping b text eq_refl).
    destruct b; simpl in Htyping;
      unfold handleStartDateInputChange, handleEndDateInputChange, handleGenericInputChange;
      rewrite Hvalue;
      destruct (Nat.eqb (String.length text) 0); simpl;
      try (split; intros Hnone; solve [auto]);
      destruct (isValid _ && dateIsInRange _ _); simpl;
      try (split; [discriminate | assumption]);
      try (split; [assumption | discriminate]).
  - unfold handleGenericInputKeyDown.
    match goal with |- context [if ?c then _ else _] => destruct c end;
      simpl; split; assumption.
  - split; assumption.
  - unfold handleIconClick; destruct (isOpen st); simpl; split; assumption.
  - split; assumption.
  - unfold handleDateRangeChange.
    destruct sd, ed; simpl; try (split; discriminate).
    destruct (closeOnSelection props); simpl; try (split; discriminate).
    destruct (mostRecentlyFocusedField st) as [[|]|]; simpl; split; discriminate.
  - unfold handleHoverChange.
    destruct r as [[hs he]|]; simpl; split; assumption.
  - unfold handleDayMouseEnter.
    destruct (mostRecentlyFocusedField st) as [[|]|]; simpl;
      try (split; assumption);
      match goal with |- context [if ?c then _ else _] => destruct c end;
      simpl; split; intros Hnone; auto;
      try (destruct (Hs Hnone); split; [reflexivity | assumption]);
      try (destruct (He Hnone); split; [reflexivity | assumption]).
Qed.

Lemma render_of_nullOnlyWhileEditing (st : IDateRangeInputState) :
  nullOnlyWhileEditing st -> exists v, render' st = Some v.
Proof.
  intros Hinv.
  apply nullOnlyWhileEditing_fields in Hinv.
  destruct Hinv as [Hs He].
  assert (HstartV : exists s, renderStartDateValue momentParse props st = Some s).
  { unfold renderStartDateValue.
    destruct (isStartDateInputFocused st) eqn:Hf; [eexists; reflexivity|].
    destruct (startDateValue st) as [s|]; [eexists; reflexivity|].
    destruct (Hs eq_refl); discriminate. }
  assert (HendV : exists e, renderEndDateValue momentParse props st = Some e).
  { unfold renderEndDateValue.
    destruct (isEndDateInputFocused st) eqn:Hf; [eexists; reflexivity|].
    destruct (endDateValue st) as [e|]; [eexists; reflexivity|].
    destruct (He eq_refl); discriminate. }
  destruct HstartV as [s HstartV], HendV as [e HendV].
  unfold render, renderEndDateString.
  rewrite HstartV, HendV.
  destruct (notNullish (endDateHoverValueString st)); [eexists; reflexivity|].
  destruct (isEndDateInputFocused st); eexists; reflexivity.
Qed.

(** Without a [value] prop, and with change events that come to the field
    marked focused, [render] throws in no state: no method is called on a
    value slot that holds [null]. *)
Theorem reachableTypingFocused_render (st : IDateRangeInputState) :
  value props = None ->
  reachableTypingFocused momentParse momentFormat props st ->
  exists v, render' st = Some v.
Proof.
  intros Hvalue Hreach.
  apply render_of_nullOnlyWhileEditing.
  induction Hreach as [| st ev Hreach IH Htyping].
  - apply initialState_nullOnlyWhileEditing.
  - apply handle_keeps_nullOnlyWhileEditing; assumption.
Qed.

End HandlersAtLarge.

(** ** The [DateRange] class *)

Module DateRangeClassFacts.

Import DateRangeClass.

Lemma msPerDay_pos : 0 < msPerDay.
Proof. reflexivity. Qed.

Lemma dayOf_setHoursZero (d : JSDate) : dayOf (setHoursZero d) = dayOf d.
Proof.
  unfold setHoursZero, dayOf.
  apply Z.div_mul.
  unfold msPerDay; lia.
Qed.

Lemma setHoursZero_le (a b : JSDate) :
  (setHoursZero a <=? setHoursZero b) = (dayOf a <=? dayOf b).
Proof.
  unfold setHoursZero.
  pose proof msPerDay_pos.
  destruct (Z.leb_spec (dayOf a) (dayOf b));
    [apply Z.leb_le | apply Z.leb_gt]; nia.
Qed.

Lemma containsDate_days (r : DateRange) (s e d : JSDate) :
  start r = Some s ->
  end' r = Some e ->
  containsDate r (Some d) false
  = Some ((dayOf s <=? dayOf d) && (dayOf d <=? dayOf e))
  /\ containsDate r (Some d) true
     = Some ((dayOf s <? dayOf d) && (dayOf d <? dayOf e)).
Proof.
  intros Hs He.
  unfold containsDate, clone, areSameDay.
  rewrite Hs, He.
  rewrite !setHoursZero_le, !dayOf_setHoursZero.
  split; [reflexivity|].
  f_equal.
  destruct (Z.leb_spec (dayOf s) (dayOf d)), (Z.leb_spec (dayOf d) (dayOf e)),
    (Z.eqb_spec (dayOf s) (dayOf d)), (Z.eqb_spec (dayOf d) (dayOf e)),
    (Z.ltb_spec (dayOf s) (dayOf d)), (Z.ltb_spec (dayOf d) (dayOf e));
    simpl; try reflexivity; lia.
Qed.

(** Whether a range with both boundaries contains a date is decided by the
    days of the three dates, whatever their times of day: from the day of
    the start to the day of the end, both included, or both excluded when
    the containment is exclusive. *)
Theorem containsDate_by_day (r : DateRange) (s e d : JSDate) :
  start r = Some s ->
  end' r = Some e ->
  containsDate r (Some d) false
  = Some ((dayOf s <=? dayOf d) && (dayOf d <=? dayOf e))
  /\ containsDate r (Some d) true
     = Some ((dayOf s <? dayOf d) && (dayOf d <? dayOf e)).
Proof.
  exact (containsDate_days r s e d).
Qed.

(** A range that starts and ends on the same day contains nothing
    exclusively, and a range whose end is on a day before its start
    contains nothing at all. *)
Theorem containsDate_empty (r : DateRange) (s e : JSDate)
    (date : option JSDate) :
  start r = Some s ->
  end' r = Some e ->
  (dayOf s = dayOf e -> containsDate r date true = Some false)
  /\ (dayOf e < dayOf s ->
      forall exclusive, containsDate r date exclusive = Some false).
Proof.
  intros Hs He.
  destruct date as [d|].
  - destruct (containsDate_days r s e d Hs He) as [Hincl Hexcl].
    split.
    + intros Hday; rewrite Hexcl; f_equal.
      destruct (Z.ltb_spec (dayOf s) (dayOf d)), (Z.ltb_spec (dayOf d) (dayOf e));
        simpl; try reflexivity; lia.
    + intros Hrev [|]; [rewrite Hexcl | rewrite Hincl]; f_equal.
      * destruct (Z.ltb_spec (dayOf s) (dayOf d)), (Z.ltb_spec (dayOf d) (dayOf e));
          simpl; try reflexivity; lia.
      * destruct (Z.leb_spec (dayOf s) (dayOf d)), (Z.leb_spec (dayOf d) (dayOf e));
          simpl; try reflexivity; lia.
  - split; [intros _ | intros _ exclusive]; reflexivity.
Qed.

Lemma containsRange_by_day (r inner : DateRange) (s e s' e' : JSDate) :
  start r = Some s -> end' r = Some e ->
  start inner = Some s' -> end' inner = Some e' ->
  containsRange r (Some inner)
  = Some (((dayOf s <=? dayOf s') && (dayOf s' <=? dayOf e))
          && ((dayOf s <=? dayOf e') && (dayOf e' <=? dayOf e))).
Proof.
  intros Hs He Hs' He'.
  unfold containsRange, toDateArray, clone.
  rewrite Hs', He'.
  rewrite (proj1 (containsDate_days r s e s' Hs He)).
  rewrite (proj1 (containsDate_days r s e e' Hs He)).
  reflexivity.
Qed.

(** Containment of ranges: a range whose start is not on a later day than
    its end contains itself, and a range contained in a range that is
    contained in a third is contained in the third. *)
Theorem containsRange_order (a b c : DateRange) (s e : JSDate) :
  (start a = Some s -> end' a = Some e -> dayOf s <= dayOf e ->
   containsRange a (Some a) = Some true)
  /\ (start c <> None -> end' c <> None ->
      containsRange a (Some b) = Some true ->
      containsRange b (Some c) = Some true ->
      containsRange a (Some c) = Some true).
Proof.
  split.
  - intros Hs He Hord.
    rewrite (containsRange_by_day a a s e s e Hs He Hs He); f_equal.
    rewrite !Z.leb_refl.
    apply Z.leb_le in Hord; rewrite Hord; reflexivity.
  - intros Hcs Hce Hab Hbc.
    destruct (start c) as [sc|] eqn:Esc; [|congruence].
    destruct (end' c) as [ec|] eqn:Eec; [|congruence].
    destruct (start b) as [sb|] eqn:Esb;
      [|unfold containsRange, toDateArray, clone, containsDate in Hbc;
        rewrite Esc, Eec, Esb in Hbc; discriminate].
    destruct (end' b) as [eb|] eqn:Eeb;
      [|unfold containsRange, toDateArray, clone, containsDate in Hbc;
        rewrite Esc, Eec, Esb, Eeb in Hbc; discriminate].
    destruct (start a) as [sa|] eqn:Esa;
      [|unfold containsRange, toDateArray, clone, containsDate in Hab;
        rewrite Esb, Eeb, Esa in Hab; discriminate].
    destruct (end' a) as [ea|] eqn:Eea;
      [|unfold containsRange, toDateArray, clone, containsDate in Hab;
        rewrite Esb, Eeb, Esa, Eea in Hab; discriminate].
    rewrite (containsRange_by_day a b sa ea sb eb Esa Eea Esb Eeb) in Hab.
    rewrite (containsRange_by_day b c sb eb sc ec Esb Eeb Esc Eec) in Hbc.
    rewrite (containsRange_by_day a c sa ea sc ec Esa Eea Esc Eec).
    inversion Hab as [Hab']; inversion Hbc as [Hbc']; f_equal.
    rewrite !andb_true_iff, !Z.leb_le in *.
    lia.
Qed.

(** The midpoint of a range whose start is not after its end lies between
    the two, within half a millisecond of the middle, and the range
    contains it; a range that lacks a boundary has no midpoint. *)
Theorem getMidpoint_between (r : DateRange) :
  (start r = None \/ end' r = None -> getMidpoint r = None)
  /\ (forall s e,
        start r = Some s -> end' r = Some e ->
        Z.abs s < 2 ^ 52 -> Z.abs e < 2 ^ 52 ->
        s <= e ->
        exists m,
          getMidpoint r = Some m
          /\ s <= m <= e
          /\ Z.abs (2 * m - (s + e)) <= 1
          /\ containsDate r (Some m) false = Some true).
Proof.
  split.
  - unfold getMidpoint.
    intros [H | H]; rewrite H; [reflexivity|].
    destruct (start r); reflexivity.
  - intros s e Hs He _ _ Hord.
    unfold getMidpoint; rewrite Hs, He.
    eexists; split; [reflexivity|].
    assert (Hm : s <= Z.quot (2 * s + (e - s)) 2 <= e
                 /\ Z.abs (2 * Z.quot (2 * s + (e - s)) 2 - (s + e)) <= 1).
    { Z.to_euclidean_division_equations; lia. }
    destruct Hm as [[Hlo Hhi] Hmid].
    repeat split; try assumption.
    rewrite (proj1 (containsDate_days r s e _ Hs He)); f_equal.
    pose proof msPerDay_pos.
    assert (dayOf s <= dayOf (Z.quot (2 * s + (e - s)) 2))
      by (apply Z.div_le_mono; assumption).
    assert (dayOf (Z.quot (2 * s + (e - s)) 2) <= dayOf e)
      by (apply Z.div_le_mono; assumption).
    rewrite andb_true_iff, !Z.leb_le; split; assumption.
Qed.

End DateRangeClassFacts.

(** ** The further properties at work, on dates written [YYYY-MM-DD] *)

(** The range handed over after the calendar reported the first to the
    fifth of March. *)
Lemma getCurrentDateRange_sound_witness :
  (startDateValue Scenario.afterPicked = Some (MDate (Iso.noon 2020 3 1))
   /\ dateIsInRange Scenario.props (Some (MDate (Iso.noon 2020 3 1))) = true)
  /\ (endDateValue Scenario.afterPicked = Some (MDate (Iso.noon 2020 3 5))
      /\ dateIsInRange Scenario.props (Some (MDate (Iso.noon 2020 3 5))) = true)
  /\ Iso.noon 2020 3 1 <= Iso.noon 2020 3 5.
Proof.
  destruct (getCurrentDateRange_sound Scenario.props Scenario.afterPicked)
    as (Hstart & Hend & Hord).
  split; [|split].
  - apply Hstart; reflexivity.
  - apply Hend; reflexivity.
  - apply Hord; reflexivity.
Defined.

(** The last day of 1969 as an end date with no start, under an upper bound
    alone. *)
Lemma getCurrentDateRange_end_alone_witness :
  getCurrentDateRange (Scenario.onlyMaxDate (Iso.date 2020 12 31))
    (fst (handleDateRangeChange Iso.momentFormat (Scenario.onlyMaxDate (Iso.date 2020 12 31))
            Scenario.init (None, Some (Iso.date 1969 12 31))))
  = (None, None).
Proof.
  apply (getCurrentDateRange_end_alone (Scenario.onlyMaxDate (Iso.date 2020 12 31))
           (fst (handleDateRangeChange Iso.momentFormat
                   (Scenario.onlyMaxDate (Iso.date 2020 12 31))
                   Scenario.init (None, Some (Iso.date 1969 12 31))))
           (Iso.date 1969 12 31)).
  - reflexivity.
  - reflexivity.
  - reflexivity.
Defined.

(** The calendar gets the first to the fifth of March back. *)
Lemma handleDateRangeChange_getCurrentDateRange_witness :
  getCurrentDateRange Scenario.props Scenario.afterPicked = Scenario.picked.
Proof.
  apply (handleDateRangeChange_getCurrentDateRange Iso.momentFormat Scenario.props
           Scenario.afterStart Scenario.picked).
  - intros s Hs; inversion Hs; reflexivity.
  - intros e He; inversion He; reflexivity.
  - intros s e Hse; inversion Hse; apply Z.leb_le; reflexivity.
  - intros e He; discriminate He.
Defined.

(** The same selection under [closeOnSelection]. *)
Lemma handleDateRangeChange_render_witness :
  exists v,
    render Iso.momentParse Iso.momentFormat Scenario.controlledProps
      (fst (handleDateRangeChange Iso.momentFormat Scenario.controlledProps
              Scenario.afterStart (Some (Iso.noon 2020 3 1), Some (Iso.noon 2020 3 5))))
    = Some v
    /\ startDateString v = SStr "2020-03-01"
    /\ endDateString v = SStr "2020-03-05"
    /\ isStartDateInputInErrorState v = false
    /\ isEndDateInputInErrorState v = false
    /\ popoverIsOpen v = false
    /\ pickerValue v = (Some (Iso.noon 2020 3 1), Some (Iso.noon 2020 3 5)).
Proof.
  apply (handleDateRangeChange_render Iso.momentParse Iso.momentFormat
           Scenario.controlledProps Scenario.afterStart
           (Iso.noon 2020 3 1) (Iso.noon 2020 3 5)).
  - reflexivity.
  - reflexivity.
  - reflexivity.
  - apply Z.leb_le; reflexivity.
Defined.

(** The start field is left empty, and left with a text, under a [value]
    prop; and left with a text that is no date without one. *)
Lemma handleGenericInputBlur_stored_value_witness :
  let blur := handleGenericInputBlur Iso.momentParse Iso.momentFormat in
  (valueOf START (fst (blur Scenario.controlledProps Scenario.afterStart
                         (SStr EmptyString) START)) = Some MNullInput
   /\ valueStringOf START (fst (blur Scenario.controlledProps Scenario.afterStart
                                  (SStr EmptyString) START)) = SNull)
  /\ valueOf START (fst (blur Scenario.controlledProps Scenario.afterStart (SStr "abc") START))
     = valueOf START Scenario.afterStart
  /\ valueOf START (fst (blur Scenario.props Scenario.afterStart (SStr "abc") START))
     = Some MInvalid.
Proof.
  intros blur.
  split; [|split].
  - apply (handleGenericInputBlur_stored_value Iso.momentParse Iso.momentFormat
             Scenario.controlledProps Scenario.afterStart (SStr EmptyString) START).
    reflexivity.
  - apply (handleGenericInputBlur_stored_value Iso.momentParse Iso.momentFormat
             Scenario.controlledProps Scenario.afterStart (SStr "abc") START).
    + reflexivity.
    + discriminate.
  - apply (handleGenericInputBlur_stored_value Iso.momentParse Iso.momentFormat
             Scenario.props Scenario.afterStart (SStr "abc") START).
    + reflexivity.
    + reflexivity.
Defined.


(** Tab in the focused start field of the first state, then the blur and
    the focus of the end field. *)
Lemma tab_hands_boundary_over_witness :
  let st := fst (Scenario.handle Scenario.init (InputFocus START)) in
  let st1 := fst (Scenario.handle st (InputKeyDown Keys_TAB false)) in
  let st2 := fst (Scenario.handle st1 (InputBlur START)) in
  let st3 := fst (Scenario.handle st2 (InputFocus END)) in
  boundaryToModify st3 = Some END
  /\ mostRecentlyFocusedField st3 = Some END
  /\ wasLastFocusChangeDueToHover st3 = false.
Proof.
  intros st.
  apply (tab_hands_boundary_over Iso.momentParse Iso.momentFormat Scenario.props
           st START false).
  - reflexivity.
  - discriminate.
Defined.

(** The start field with 2020-02-10, and with the rejected 2021-05-05,
    takes the focus. *)
Lemma focus_start_shown_text_witness :
  let late := fst (Scenario.run Scenario.init (Scenario.typedAndLeft START "2021-05-05")) in
  renderStartDateString Iso.momentFormat Scenario.props
    (fst (Scenario.handle Scenario.afterStart (InputFocus START)))
  = renderStartDateString Iso.momentFormat Scenario.props Scenario.afterStart
  /\ renderStartDateString Iso.momentFormat Scenario.props late = SStr "Out of range"
  /\ renderStartDateString Iso.momentFormat Scenario.props
       (fst (Scenario.handle late (InputFocus START)))
     = SStr "2021-05-05".
Proof.
  intros late.
  destruct (focus_start_shown_text Iso.momentParse Iso.momentFormat Scenario.props
              Scenario.afterStart eq_refl eq_refl) as [Hkeep _].
  destruct (focus_start_shown_text Iso.momentParse Iso.momentFormat Scenario.props
              late eq_refl eq_refl) as [_ Hlate].
  split.
  - apply Hkeep.
    right; reflexivity.
  - apply (Hlate (Iso.date 2021 5 5)).
    + reflexivity.
    + reflexivity.
Defined.

(** The hover of the first of March over the typed start: the start field
    shows the hover string and is not in error. *)
Lemma render_hover_not_in_error_witness :
  let st := fst (handleHoverChange Iso.momentFormat Scenario.props Scenario.startOnly
                   (Some Scenario.hoveredBefore)) in
  option_map isStartDateInputInErrorState (Scenario.render st) = Some false.
Proof.
  intros st.
  destruct (Scenario.render st) as [v|] eqn:Hv.
  - simpl; f_equal.
    apply (render_hover_not_in_error Iso.momentParse Iso.momentFormat Scenario.props st v).
    + exact Hv.
    + reflexivity.
  - vm_compute in Hv; discriminate Hv.
Defined.

(** A focus event of the start field leaves its stored value alone. *)
Lemma handle_keeps_stored_value_witness :
  valueOf START (fst (Scenario.handle Scenario.afterStart (InputFocus START)))
  = valueOf START Scenario.afterStart.
Proof.
  apply (handle_keeps_stored_value Iso.momentParse Iso.momentFormat Scenario.props
           Scenario.afterStart (InputFocus START) START).
  - intros text H; discriminate H.
  - intros H; discriminate H.
  - intros dateRange H; discriminate H.
Defined.

(** A selection in the calendar leaves the boundary to modify alone. *)
Lemma handle_keeps_boundaryToModify_witness :
  boundaryToModify (fst (Scenario.handle Scenario.afterStart (PickerChange Scenario.picked)))
  = boundaryToModify Scenario.afterStart
  /\ mostRecentlyFocusedField
       (fst (Scenario.handle Scenario.afterStart (PickerChange Scenario.picked)))
     = mostRecentlyFocusedField Scenario.afterStart.
Proof.
  apply (handle_keeps_boundaryToModify Iso.momentParse Iso.momentFormat Scenario.props
           Scenario.afterStart (PickerChange Scenario.picked)).
  intros b H; discriminate H.
Defined.

(** The text of the focused start field is deleted: the slot holds [null]
    and [render] returns. *)
Lemma reachableTypingFocused_render_witness :
  exists v,
    render Iso.momentParse Iso.momentFormat Scenario.props
      (fst (handle Iso.momentParse Iso.momentFormat Scenario.props
         (fst (handle Iso.momentParse Iso.momentFormat Scenario.props
            (initialState Scenario.props) (InputFocus START)))
         (InputChange START EmptyString)))
    = Some v.
Proof.
  apply (reachableTypingFocused_render Iso.momentParse Iso.momentFormat Scenario.props).
  - reflexivity.
  - apply typingFocused_step.
    + apply typingFocused_step.
      * apply typingFocused_init.
      * intros b text H; discriminate H.
    + intros b text H; inversion H; reflexivity.
Defined.

(** The seventh of March at noon and the first week of March. *)
Lemma containsDate_by_day_witness :
  DateRangeClass.containsDate Scenario.firstWeek (Some (Iso.noon 2020 3 7)) false = Some true
  /\ DateRangeClass.containsDate Scenario.firstWeek (Some (Iso.noon 2020 3 7)) true
     = Some false.
Proof.
  apply (DateRangeClassFacts.containsDate_by_day Scenario.firstWeek
           (Iso.noon 2020 3 1) (Iso.date 2020 3 7) (Iso.noon 2020 3 7)).
  - reflexivity.
  - reflexivity.
Defined.

(** The first week of March turned around contains none of its days, and
    March exclusively contains nothing of a range of its first day. *)
Lemma containsDate_empty_witness :
  DateRangeClass.containsDate
    {| DateRangeClass.start := Some (Iso.date 2020 3 7);
       DateRangeClass.end' := Some (Iso.noon 2020 3 1) |}
    (Some (Iso.date 2020 3 3)) false = Some false
  /\ DateRangeClass.containsDate
       {| DateRangeClass.start := Some (Iso.date 2020 3 1);
          DateRangeClass.end' := Some (Iso.noon 2020 3 1) |}
       (Some (Iso.noon 2020 3 1)) true = Some false.
Proof.
  split.
  - apply (proj2 (DateRangeClassFacts.containsDate_empty
             {| DateRangeClass.start := Some (Iso.date 2020 3 7);
                DateRangeClass.end' := Some (Iso.noon 2020 3 1) |}
             (Iso.date 2020 3 7) (Iso.noon 2020 3 1) (Some (Iso.date 2020 3 3))
             eq_refl eq_refl)).
    reflexivity.
  - apply (proj1 (DateRangeClassFacts.containsDate_empty
             {| DateRangeClass.start := Some (Iso.date 2020 3 1);
                DateRangeClass.end' := Some (Iso.noon 2020 3 1) |}
             (Iso.date 2020 3 1) (Iso.noon 2020 3 1) (Some (Iso.noon 2020 3 1))
             eq_refl eq_refl)).
    reflexivity.
Defined.

(** March contains itself, and a range within the first week of March. *)
Lemma containsRange_order_witness :
  let inner :=
    {| DateRangeClass.start := Some (Iso.noon 2020 3 2);
       DateRangeClass.end' := Some (Iso.noon 2020 3 3) |} in
  DateRangeClass.containsRange Scenario.march (Some Scenario.march) = Some true
  /\ DateRangeClass.containsRange Scenario.march (Some inner) = Some true.
Proof.
  intros inner.
  destruct (DateRangeClassFacts.containsRange_order Scenario.march Scenario.firstWeek inner
              (Iso.date 2020 3 1) (Iso.noon 2020 3 31)) as [Hrefl Htrans].
  split.
  - apply Hrefl.
    + reflexivity.
    + reflexivity.
    + apply Z.leb_le; reflexivity.
  - apply Htrans.
    + discriminate.
    + discriminate.
    + reflexivity.
    + reflexivity.
Defined.

(** The midpoint of the first week of March. *)
Lemma getMidpoint_between_witness :
  exists m,
    DateRangeClass.getMidpoint Scenario.firstWeek = Some m
    /\ Iso.noon 2020 3 1 <= m <= Iso.date 2020 3 7
    /\ Z.abs (2 * m - (Iso.noon 2020 3 1 + Iso.date 2020 3 7)) <= 1
    /\ DateRangeClass.containsDate Scenario.firstWeek (Some m) false = Some true.
Proof.
  apply (DateRangeClassFacts.getMidpoint_between Scenario.firstWeek).
  - reflexivity.
  - reflexivity.
  - reflexivity.
  - reflexivity.
  - apply Z.leb_le; reflexivity.
Defined.

(** A key is pressed in the focused start field, with the hover string of
    the first of March in it and without. *)
Lemma handleGenericInputChange_shown_text_witness :
  let hovered := fst (handleHoverChange Iso.momentFormat Scenario.props Scenario.startOnly
                        (Some Scenario.hoveredBefore)) in
  renderStartDateString Iso.momentFormat Scenario.props
    (fst (Scenario.handle hovered (InputChange START "2020-03-09")))
  = SStr "2020-03-01"
  /\ renderStartDateString Iso.momentFormat Scenario.props
       (fst (Scenario.handle Scenario.startOnly (InputChange START "2020-03-09")))
     = SStr "2020-03-09"
  /\ renderEndDateString Iso.momentParse Iso.momentFormat Scenario.props
       (fst (Scenario.handle (fst (Scenario.handle Scenario.afterStart (InputFocus END)))
               (InputChange END EmptyString)))
     = Some (SStr EmptyString).
Proof.
  intros hovered.
  split; [|split].
  - apply (proj1 (handleGenericInputChange_shown_text Iso.momentParse Iso.momentFormat
                    Scenario.props hovered "2020-03-09")).
    reflexivity.
  - apply (proj1 (handleGenericInputChange_shown_text Iso.momentParse Iso.momentFormat
                    Scenario.props Scenario.startOnly "2020-03-09")).
    reflexivity.
  - apply (proj2 (handleGenericInputChange_shown_text Iso.momentParse Iso.momentFormat
                    Scenario.props
                    (fst (Scenario.handle Scenario.afterStart (InputFocus END)))
                    EmptyString)).
    reflexivity.
Defined.

(** The start field of the first state is focused and left, and the pointer
    enters a day. *)
Lemma dayMouseEnter_marks_last_focused_witness :
  let st1 := fst (Scenario.handle Scenario.init (InputFocus START)) in
  let st2 := fst (Scenario.handle st1 (InputBlur START)) in
  let st3 := fst (Scenario.handle st2 PickerDayMouseEnter) in
  focusedOf START st2 = false
  /\ focusedOf START st3 = true
  /\ focusedOf END st3 = false
  /\ startDateValue st3 = startDateValue st2
  /\ endDateValue st3 = endDateValue st2
  /\ (forall activeElement,
        activeElement <> Some START -> componentDidUpdate st3 activeElement = [RefFocus START]).
Proof.
  apply (dayMouseEnter_marks_last_focused Iso.momentParse Iso.momentFormat Scenario.props
           Scenario.init START).
  reflexivity.
Defined.
